(** * Edge middleware of the prerender system: bot detection, sitemap
      proxying, prerender lookup and script injection

    Shallow embedding of [middleware.ts] (the Cloudflare Pages middleware, with
    and without script injection) and of the edge functions behind it
    ([prerender], [generate-sitemap], [serve-sitemap]) with their text
    utilities, followed by the properties of the request pipeline.

    JavaScript strings are modelled as [string]: sequences of code units below
    256, which covers header values (byte strings) and URL paths (ASCII).
    A document is kept as its UTF-8 bytes, as a body and as the text read
    from a body alike: searching for an ASCII marker in a document is the same
    on the UTF-8 bytes of the document as on its UTF-16 code units, and
    reading a body as text is the UTF-8 decoder seen on the bytes ([text]). *)

From Stdlib Require Import ZArith Ascii String List Bool Lia DecimalString.
From stdpp Require Import base option list strings gmap fin_maps.

Local Open Scope string_scope.
Local Open Scope Z_scope.

(* Let [simpl] unfold string concatenation on constructors. *)
Local Arguments String.append !_ _ / : simpl nomatch.

(** ** Strings as the code uses them *)

Module JsString.

(** [String.prototype.toLowerCase] on a code unit below 256: the letters
    A-Z, and the Latin-1 capitals U+00C0..U+00DE except the multiplication
    sign U+00D7, move up by 32. *)
Definition lower_ascii (c : ascii) : ascii :=
  let n := N_of_ascii c in
  if ((65 <=? n) && (n <=? 90))%N then ascii_of_N (n + 32)
  else if ((192 <=? n) && (n <=? 222) && negb (n =? 215))%N
       then ascii_of_N (n + 32)
  else c.

Fixpoint toLowerCase (s : string) : string :=
  match s with
  | EmptyString => EmptyString
  | String c r => String (lower_ascii c) (toLowerCase r)
  end.

(** [s.startsWith(p)] *)
Fixpoint startsWith (p s : string) : bool :=
  match p, s with
  | EmptyString, _ => true
  | String a p', String b s' => if Ascii.eqb a b then startsWith p' s' else false
  | String _ _, EmptyString => false
  end.

(** [s.includes(p)]: some suffix of [s] starts with [p]. *)
Fixpoint includes (s p : string) : bool :=
  if startsWith p s then true
  else match s with
       | EmptyString => false
       | String _ s' => includes s' p
       end.

(** [s.endsWith(p)] *)
Fixpoint endsWith (s p : string) : bool :=
  if String.eqb s p then true
  else match s with
       | EmptyString => false
       | String _ s' => endsWith s' p
       end.

(** [arr.join(sep)] *)
Fixpoint join (sep : string) (l : list string) : string :=
  match l with
  | [] => ""
  | [x] => x
  | x :: r => x +:+ sep +:+ join sep r
  end.

(** Truthiness of a string: non-empty. *)
Definition truthy (s : string) : bool :=
  match s with EmptyString => false | _ => true end.

(** [a || b] on strings. *)
Definition or_else (a b : string) : string := if truthy a then a else b.

(** The substring relation that [includes] decides. *)
Definition occurs_in (p s : string) : Prop :=
  exists a b, s = a +:+ p +:+ b.

End JsString.
Import JsString.

(** ** Bot classifier *)

Definition BOT_AGENTS : list string :=
  [ (* Search Engines *)
    "googlebot"; "bingbot"; "yandexbot"; "baiduspider"; "duckduckbot";
    "slurp"; "sogou"; "exabot"; "ia_archiver";
    (* AI Crawlers *)
    "gptbot"; "chatgpt-user"; "oai-searchbot";
    "claudebot"; "claude-user"; "claude-searchbot";
    "google-extended"; "google-cloudvertexbot"; "gemini-deep-research";
    "perplexitybot"; "perplexity-user";
    "meta-externalagent"; "meta-webindexer";
    "bytespider"; "amazonbot"; "duckassistbot";
    "mistralai-user"; "cohere-ai"; "ccbot"; "diffbot"; "webzio"; "icc-crawler";
    (* Social Media *)
    "facebookexternalhit"; "facebot"; "twitterbot"; "linkedinbot";
    "pinterest"; "whatsapp"; "telegrambot"; "slackbot"; "discordbot";
    "vkshare"; "redditbot"; "tumblr"; "embedly"; "quora link preview"; "outbrain";
    (* SEO Tools *)
    "semrushbot"; "ahrefsbot"; "mj12bot"; "dotbot"; "rogerbot";
    "screaming frog"; "seokicks"; "blexbot"; "siteexplorer"; "serpstatbot";
    (* Apple & Other *)
    "applebot"; "applebot-extended"; "petalbot"; "seznambot";
    "naver"; "yeti"; "qwantify"; "ecosia"; "mojeek";
    (* Google Specific *)
    "mediapartners-google"; "adsbot-google"; "feedfetcher-google";
    "google-read-aloud"; "storebot-google"; "google-safety";
    (* Archive & Research *)
    "archive.org_bot"; "wayback"; "wget"; "curl"; "python-requests";
    "go-http-client"; "java"; "libwww-perl"; "axios"; "httpie"; "postman";
    (* Feed Readers *)
    "feedly"; "flipboard"; "newsblur"; "inoreader"; "theoldreader"; "feedbin" ].

(** [BOT_AGENTS.some(bot => lower.includes(bot))] is [existsb]. *)
Definition isBot (ua : string) : bool :=
  if negb (truthy ua) then false
  else
    let lower := toLowerCase ua in
    existsb (fun bot => includes lower bot) BOT_AGENTS.

(** ** HTML injector *)

Module JsReplace.

(** [stripPrefix p s] is the rest of [s] after its prefix [p]. *)
Fixpoint stripPrefix (p s : string) : option string :=
  match p, s with
  | EmptyString, _ => Some s
  | String a p', String b s' =>
      if Ascii.eqb a b then stripPrefix p' s' else None
  | String _ _, EmptyString => None
  end.

(** The first occurrence of [pat] in [s]: the text before it and the text
    after it. *)
Fixpoint findFirst (pat s : string) : option (string * string) :=
  match stripPrefix pat s with
  | Some rest => Some ("", rest)
  | None =>
      match s with
      | EmptyString => None
      | String c s' =>
          match findFirst pat s' with
          | Some (before, after) => Some (String c before, after)
          | None => None
          end
      end
  end.

(** ECMAScript [GetSubstitution] for a string pattern (no capture groups):
    in the replacement text, [$$] stands for a dollar sign, [$&] for the
    matched text, [$`] for the text before the match and [$'] for the text
    after it; every other code unit, also a dollar sign followed by
    anything else, stands for itself. *)
Fixpoint GetSubstitution (matched before after tmpl : string) : string :=
  match tmpl with
  | EmptyString => EmptyString
  | String c t =>
      if Ascii.eqb c "$" then
        match t with
        | String d t' =>
            if Ascii.eqb d "$" then
              String "$" (GetSubstitution matched before after t')
            else if Ascii.eqb d "`" then
              before +:+ GetSubstitution matched before after t'
            else if Ascii.eqb d "&" then
              matched +:+ GetSubstitution matched before after t'
            else if Ascii.eqb d "'" then
              after +:+ GetSubstitution matched before after t'
            else String c (GetSubstitution matched before after t)
        | EmptyString => String c EmptyString
        end
      else String c (GetSubstitution matched before after t)
  end.

(** [s.replace(pat, repl)] with a string [pat]: only the first occurrence
    is replaced. *)
Definition replace (s pat repl : string) : string :=
  match findFirst pat s with
  | Some (before, after) =>
      before +:+ GetSubstitution pat before after repl +:+ after
  | None => s
  end.

End JsReplace.
Import JsReplace.

Definition LF : string := String "010"%char EmptyString.

(** The joined fragments that [getScripts] hands to the injector. *)
Record Scripts := mkScripts { head : string; body : string }.

Definition injectScripts (html : string) (scripts : Scripts) : string :=
  let html :=
    if truthy (head scripts)
    then replace html "</head>" (head scripts +:+ LF +:+ "</head>")
    else html in
  let html :=
    if truthy (body scripts)
    then replace html "</body>" (body scripts +:+ LF +:+ "</body>")
    else html in
  html.

(** ** The platform: clock, backend, origin *)

(** What an awaited call can do: settle with a value, reject, or never
    settle. *)
Inductive outcome (A : Type) : Type :=
| Returned (a : A)
| Thrown
| Pending.
Arguments Returned {A} a.
Arguments Thrown {A}.
Arguments Pending {A}.

Record Env := mkEnv { SUPABASE_URL : string; SUPABASE_ANON_KEY : string }.

(** Module-level cache of the script registry. *)
Record ScriptCache := mkScriptCache {
  sc_head : list string;
  sc_body : list string;
  fetchedAt : Z
}.

Definition CACHE_TTL_MS : Z := 5 * 60 * 1000.

(** The second argument of [fetch]: the headers, and the abort signal when
    one is given ([Some ms] stands for [AbortSignal.timeout(ms)]). *)
Record RequestInit := mkInit {
  init_headers : list (string * string);
  init_signal : option Z
}.

Record OutboundCall := mkCall { call_url : string; call_init : RequestInit }.

(** The parsed body of the script registry at the type that the code gives
    it, [{ head: string[]; body: string[] }], either field possibly missing
    (or falsy).  A document with a field that is neither falsy nor an array
    has no place in this type: the model covers the registry documents of
    the declared type only. *)
Record ScriptData := mkData {
  data_head : option (list string);
  data_body : option (list string)
}.

(** A backend response: status, headers (names in lower case, as a [Headers]
    object keeps them), the body as text, and the body parsed as the script
    registry document ([None] when [json()] throws). *)
Record FetchResponse := mkFetchResponse {
  fr_status : Z;
  fr_headers : gmap string string;
  fr_text : string;
  fr_json : option ScriptData
}.

(** [resp.ok] *)
Definition ok (r : FetchResponse) : bool :=
  (200 <=? fr_status r) && (fr_status r <=? 299).

Inductive FetchOutcome : Type :=
| Responds (r : FetchResponse)
| Rejects
| Hangs.

(** A response of the edge layer or of the origin.  [resp_headers] gives each
    header name (in lower case for a response that was received) its value.
    A name occurs once in a [Headers] object, but for [Set-Cookie], which may
    come on several lines: the map holds the first of them under
    [set-cookie], and [resp_more_cookies] the lines after it, in their
    order.  [resp_body] holds the bytes of the body. *)
Record Response := responseOf {
  resp_status : Z;
  resp_headers : gmap string string;
  resp_more_cookies : list string;
  resp_body : string
}.

(** A response whose header lines are the entries of an object, so that no
    name comes twice.  Where the layer writes [new Response(body, { status:
    200, headers })] this is what it builds: with status 200 the constructor
    takes a body. *)
Definition mkResponse (status : Z) (headers : gmap string string) (body : string)
  : Response :=
  responseOf status headers [] body.

(** The object that the debug endpoint serialises. *)
Record DebugInfo := mkDebugInfo {
  dbg_middleware : string;
  dbg_version : string;
  dbg_hasSupabaseUrl : bool;
  dbg_hasSupabaseKey : bool;
  dbg_hostname : string;
  dbg_userAgent : string;
  dbg_isBot : bool;
  dbg_scriptCacheAge : option Z;  (* [Some n] prints as n followed by s, [None] as cold *)
  dbg_timestamp : Z
}.

Record World := mkWorld {
  now : Z;                                   (* Date.now() *)
  backend : OutboundCall -> FetchOutcome;    (* what the backend does with a call *)
  next : outcome Response;                   (* the origin, [next()] *)
  stringify : DebugInfo -> string            (* JSON.stringify(..., null, 2) *)
}.

(** The incoming request, as far as the middleware reads it. *)
Record Request := mkRequest {
  url_hostname : string;
  url_pathname : string;
  req_user_agent : option string
}.

(** The isolate: the module-level [scriptCache], and the outbound calls made
    so far. *)
Record Isolate := mkIsolate {
  scriptCache : option ScriptCache;
  calls : list OutboundCall
}.

(** ** A state monad with rejection and non-termination *)

Definition M (A : Type) : Type := Isolate -> outcome A * Isolate.

Definition ret {A} (a : A) : M A := fun s => (Returned a, s).

Definition throw {A} : M A := fun s => (Thrown, s).

Definition bind {A B} (m : M A) (f : A -> M B) : M B :=
  fun s =>
    match m s with
    | (Returned a, s') => f a s'
    | (Thrown, s') => (Thrown, s')
    | (Pending, s') => (Pending, s')
    end.

(** [try { m } catch (e) { h }]: a rejection is handled, a call that never
    settles is not. *)
Definition try_catch {A} (m h : M A) : M A :=
  fun s =>
    match m s with
    | (Thrown, s') => h s'
    | r => r
    end.

Notation "'do' x <- m ; k" := (bind m (fun x => k))
  (at level 10, x name, m at level 100, k at level 200).

Definition read_scriptCache : M (option ScriptCache) :=
  fun s => (Returned (scriptCache s), s).

Definition write_scriptCache (c : ScriptCache) : M unit :=
  fun s => (Returned tt, mkIsolate (Some c) (calls s)).

(** [await x] for a value the platform hands over. *)
Definition await {A} (o : outcome A) : M A := fun s => (o, s).

(** [fetch(url, init)]: the call is recorded; a backend that never answers
    rejects the call only if [init] carries an abort signal. *)
Definition fetch (w : World) (c : OutboundCall) : M FetchResponse :=
  fun s =>
    let s' := mkIsolate (scriptCache s) (calls s ++ [c]) in
    match backend w c with
    | Responds r => (Returned r, s')
    | Rejects => (Thrown, s')
    | Hangs =>
        match init_signal (call_init c) with
        | Some _ => (Thrown, s')
        | None => (Pending, s')
        end
    end.

(** [headers.get(name)]: names are compared without case. *)
Definition headers_get (h : gmap string string) (name : string) : option string :=
  h !! toLowerCase name.

(** [headers.get(name) || dflt] *)
Definition get_or (h : gmap string string) (name dflt : string) : string :=
  match headers_get h name with
  | Some v => or_else v dflt
  | None => dflt
  end.

(** [response.headers.entries()]: one pair for each name, and one for each
    [Set-Cookie] line, these in the order of the lines.  (The iteration goes
    by name; the order of different names has no part in what
    [Object.fromEntries] builds.) *)
Definition entries (r : Response) : list (string * string) :=
  (map_to_list (resp_headers r)
   ++ map (fun line => ("set-cookie", line)) (resp_more_cookies r))%list.

(** [Object.fromEntries(l)]: each pair assigned in turn to a fresh object, so
    that of two pairs with one name the later stays. *)
Definition fromEntries (l : list (string * string)) : gmap string string :=
  fold_left (fun o kv => <[kv.1 := kv.2]> o) l ∅.

(** An object literal [{ k1: v1, ..., kn: vn }]. *)
Definition object (l : list (string * string)) : gmap string string :=
  fold_left (fun o kv => <[kv.1 := kv.2]> o) l ∅.

(** The statuses with which [new Response] takes a body: the constructor
    throws a RangeError for a status outside 200..599, and a TypeError for a
    body given with one of the statuses that admit none (101, 204, 205, 304;
    the first is already out of the range). *)
Definition acceptsBody (status : Z) : bool :=
  (200 <=? status) && (status <=? 599)
  && negb ((status =? 204) || (status =? 205) || (status =? 304)).

(** [new Response(body, { status, headers })] for a body that is a string and
    a status that is computed. *)
Definition newResponse (body : string) (status : Z) (headers : gmap string string)
  : M Response :=
  if acceptsBody status then ret (mkResponse status headers body) else throw.

(** *** Reading a body as text *)

(** U+FFFD in UTF-8, and the byte order mark. *)
Definition REPLACEMENT : string :=
  String (ascii_of_N 239) (String (ascii_of_N 191) (String (ascii_of_N 189) "")).

Definition BOM : string :=
  String (ascii_of_N 239) (String (ascii_of_N 187) (String (ascii_of_N 191) "")).

(** The UTF-8 decoder of the Encoding standard, followed by the encoder: the
    bytes of every well-formed sequence are written as they are read, and
    U+FFFD is written for every error.  [seen] holds the bytes of the
    sequence under way, [needed] the number of bytes it still lacks, and
    [lower] and [upper] bound its next byte.  A byte that cannot continue the
    sequence ends it with an error and is read again as a first byte. *)
Fixpoint utf8 (seen : string) (needed : nat) (lower upper : N) (bytes : string)
  : string :=
  match bytes with
  | EmptyString =>
      match needed with
      | O => EmptyString
      | S _ => REPLACEMENT
      end
  | String b rest =>
      let n := N_of_ascii b in
      let first :=
        (if n <=? 127 then String b (utf8 "" 0 128 191 rest)
         else if (194 <=? n) && (n <=? 223) then
           utf8 (String b "") 1 128 191 rest
         else if (224 <=? n) && (n <=? 239) then
           utf8 (String b "") 2 (if n =? 224 then 160 else 128)
                (if n =? 237 then 159 else 191) rest
         else if (240 <=? n) && (n <=? 244) then
           utf8 (String b "") 3 (if n =? 240 then 144 else 128)
                (if n =? 244 then 143 else 191) rest
         else REPLACEMENT +:+ utf8 "" 0 128 191 rest)%N in
      match needed with
      | O => first
      | S k =>
          if ((lower <=? n) && (n <=? upper))%N then
            match k with
            | O => seen +:+ String b (utf8 "" 0 128 191 rest)
            | S _ => utf8 (seen +:+ String b "") k 128 191 rest
            end
          else REPLACEMENT +:+ first
      end
  end.

(** [await response.text()], on the bytes of the body: a byte order mark at
    the start is dropped, the rest is decoded.  The body is taken as read in
    full. *)
Definition text (bytes : string) : string :=
  utf8 "" 0 128 191
       (match stripPrefix BOM bytes with
        | Some rest => rest
        | None => bytes
        end).

(** ** Route classifier *)

Definition STATIC_EXTENSIONS : list string :=
  [ "js"; "css"; "png"; "jpg"; "jpeg"; "gif"; "svg"; "ico"; "woff"; "woff2";
    "ttf"; "eot"; "map"; "json"; "txt"; "pdf"; "mp4"; "webm"; "webp"; "avif" ].

(** The test of the regular expression [\.(js|css|...)$] with flag [i]: the
    path ends, case aside, in a dot and one of the extensions. *)
Definition isStaticAsset (path : string) : bool :=
  existsb (fun ext => endsWith (toLowerCase path) ("." +:+ ext))
          STATIC_EXTENSIONS.

Definition isDigit (c : ascii) : bool :=
  let n := N_of_ascii c in ((48 <=? n) && (n <=? 57))%N.

(** [\d+\.xml$] on the rest of a path; [seen] tells whether a digit has been
    read. *)
Fixpoint digitsThenXml (seen : bool) (s : string) : bool :=
  match s with
  | EmptyString => false
  | String c r =>
      if isDigit c then digitsThenXml true r
      else seen && String.eqb s ".xml"
  end.

(** [^\/sitemap-(markets|pillars)-\d+\.xml$] *)
Definition isSitemapShard (path : string) : bool :=
  match stripPrefix "/sitemap-markets-" path with
  | Some rest => digitsThenXml false rest
  | None =>
      match stripPrefix "/sitemap-pillars-" path with
      | Some rest => digitsThenXml false rest
      | None => false
      end
  end.

Definition isDynamicSitemap (path : string) : bool :=
  String.eqb path "/sitemap-markets.xml" || String.eqb path "/sitemap-pillars.xml".

Definition isStaticSitemap (path : string) : bool :=
  isSitemapShard path || String.eqb path "/sitemap-index.xml".

(** [path.replace(/^\//, '')] *)
Definition dropLeadingSlash (path : string) : string :=
  match stripPrefix "/" path with
  | Some rest => rest
  | None => path
  end.

(** ** URL encoding *)

Definition hexDigit (n : N) : ascii :=
  if (n <? 10)%N then ascii_of_N (48 + n) else ascii_of_N (55 + n).

Definition pct (n : N) : string :=
  String "%" (String (hexDigit (n / 16)) (String (hexDigit (n mod 16)) "")).

Definition unreserved (c : ascii) : bool :=
  let n := N_of_ascii c in
  ((65 <=? n) && (n <=? 90))%N || ((97 <=? n) && (n <=? 122))%N
  || ((48 <=? n) && (n <=? 57))%N
  || existsb (Ascii.eqb c)
       ["-"; "_"; "."; "!"; "~"; "*"; "'"; "("; ")"]%char.

(** [encodeURIComponent]: a code unit from 128 on is written as the two
    bytes of its UTF-8 form. *)
Fixpoint encodeURIComponent (s : string) : string :=
  match s with
  | EmptyString => EmptyString
  | String c r =>
      let n := N_of_ascii c in
      (if unreserved c then String c ""
       else if (n <? 128)%N then pct n
       else pct (192 + n / 64) +:+ pct (128 + n mod 64))
      +:+ encodeURIComponent r
  end.

(** ** The middleware *)

(** [request.headers.get('user-agent') || ''] *)
Definition userAgentOf (request : Request) : string :=
  match req_user_agent request with
  | Some ua => or_else ua ""
  | None => ""
  end.

Section Middleware.

Variable w : World.
Variable env : Env.

(** The headers sent with every backend call. *)
Definition authHeaders : list (string * string) :=
  [ ("Authorization", "Bearer " +:+ SUPABASE_ANON_KEY env);
    ("apikey", SUPABASE_ANON_KEY env) ].

Definition scriptServiceCall : OutboundCall :=
  mkCall (SUPABASE_URL env +:+ "/functions/v1/script-service")
         (mkInit authHeaders None).

Definition generateSitemapCall (type : string) : OutboundCall :=
  mkCall (SUPABASE_URL env +:+ "/functions/v1/generate-sitemap?type=" +:+ type)
         (mkInit authHeaders None).

Definition serveSitemapCall (filename : string) : OutboundCall :=
  mkCall (SUPABASE_URL env +:+ "/functions/v1/serve-sitemap?file="
            +:+ encodeURIComponent filename)
         (mkInit authHeaders None).

Definition prerenderCall (path userAgent : string) : OutboundCall :=
  mkCall (SUPABASE_URL env +:+ "/functions/v1/prerender?path="
            +:+ encodeURIComponent path)
         (mkInit (authHeaders ++ [("User-Agent", userAgent)]) None).

(** The pair handed to the injector: each sequence joined by line feeds. *)
Definition joined (c : ScriptCache) : Scripts :=
  mkScripts (join LF (sc_head c)) (join LF (sc_body c)).

(** The [try] block of [getScripts] and the code after it: the block yields
    [Some] when it returned and [None] when control leaves it. *)
Definition refreshScripts (t : Z) : M Scripts :=
  do r <- try_catch
            (do resp <- fetch w scriptServiceCall;
             if ok resp then
               match fr_json resp with
               | None => throw
               | Some data =>
                   let c := mkScriptCache (default [] (data_head data))
                                          (default [] (data_body data)) t in
                   do _ <- write_scriptCache c;
                   ret (Some (joined c))
               end
             else ret None)
            (ret None);
  match r with
  | Some scripts => ret scripts
  | None =>
      do cache <- read_scriptCache;
      match cache with
      | Some c => ret (joined c)
      | None => ret (mkScripts "" "")
      end
  end.

Definition getScripts : M Scripts :=
  let t := now w in
  do cache <- read_scriptCache;
  match cache with
  | Some c =>
      if t - fetchedAt c <? CACHE_TTL_MS then ret (joined c)
      else refreshScripts t
  | None => refreshScripts t
  end.

(** The debug endpoint. *)
Definition debugResponse (request : Request) (userAgent : string) : M Response :=
  do cache <- read_scriptCache;
  let info :=
    mkDebugInfo "pages-middleware" "2.0.0"
      (truthy (SUPABASE_URL env)) (truthy (SUPABASE_ANON_KEY env))
      (url_hostname request)
      (String.substring 0 80 userAgent)
      (isBot userAgent)
      (match cache with
       | Some c => Some ((now w - fetchedAt c + 500) / 1000)
       | None => None
       end)
      (now w) in
  ret (mkResponse 200 (object [("Content-Type", "application/json")])
                  (stringify w info)).

(** Dynamic sitemaps: [Some] is the response returned, [None] falls
    through. *)
Definition dynamicSitemap (path : string) : M (option Response) :=
  if isDynamicSitemap path then
    let type := if includes path "markets" then "markets" else "pillars" in
    try_catch
      (do resp <- fetch w (generateSitemapCall type);
       if ok resp then
         ret (Some (mkResponse 200
                (object [ ("Content-Type", "application/xml; charset=utf-8");
                          ("Cache-Control", "public, max-age=3600, s-maxage=86400");
                          ("X-Sitemap-Source", "supabase") ])
                (fr_text resp)))
       else ret None)
      (ret None)
  else ret None.

(** Static sitemap shards and the index. *)
Definition staticSitemap (path : string) : M (option Response) :=
  if isStaticSitemap path then
    let filename := dropLeadingSlash path in
    try_catch
      (do resp <- fetch w (serveSitemapCall filename);
       if ok resp then
         ret (Some (mkResponse 200
                (object [ ("Content-Type", "application/xml; charset=utf-8");
                          ("Cache-Control", "public, max-age=1800, s-maxage=3600");
                          ("X-Sitemap-Source", "supabase-static") ])
                (fr_text resp)))
       else ret None)
      (ret None)
  else ret None.

(** Bot detection: the prerendered page with scripts injected. *)
Definition prerenderForBot (path userAgent : string) (scripts : Scripts)
  : M (option Response) :=
  if isBot userAgent then
    try_catch
      (do res <- fetch w (prerenderCall path userAgent);
       if ok res then
         let html := injectScripts (fr_text res) scripts in
         ret (Some (mkResponse 200
                (object [ ("Content-Type", "text/html; charset=utf-8");
                          ("X-Prerendered", "true");
                          ("X-Scripts-Injected", "true");
                          ("X-Cache", get_or (fr_headers res) "X-Cache" "hit");
                          ("Cache-Control", "public, max-age=3600") ])
                html))
       else ret None)
      (ret None)
  else ret None.

(** Human, or bot fallback: the SPA with scripts injected. *)
Definition serveSpa (scripts : Scripts) : M Response :=
  do response <- await (next w);
  let contentType := get_or (resp_headers response) "Content-Type" "" in
  if negb (includes contentType "text/html") then ret response
  else
    let html := injectScripts (text (resp_body response)) scripts in
    newResponse html (resp_status response)
      (<["X-Scripts-Injected" := "true"]> (fromEntries (entries response))).

(** The part of the pipeline that serves pages. *)
Definition servePage (path userAgent : string) (scripts : Scripts) : M Response :=
  do r <- prerenderForBot path userAgent scripts;
  match r with
  | Some resp => ret resp
  | None => serveSpa scripts
  end.

Definition onRequest (request : Request) : M Response :=
  let path := url_pathname request in
  let userAgent := userAgentOf request in
  if isStaticAsset path then await (next w)
  else if String.eqb path "/__debug" then debugResponse request userAgent
  else
    do scripts <- getScripts;
    do r <- dynamicSitemap path;
    match r with
    | Some resp => ret resp
    | None =>
        do r <- staticSitemap path;
        match r with
        | Some resp => ret resp
        | None => servePage path userAgent scripts
        end
    end.

End Middleware.

(** ** Script registry cache *)

(** A refresh attempt fails when the call rejects, the response is not 2xx,
    or its body does not parse. *)
Definition registryFailed (o : FetchOutcome) : bool :=
  match o with
  | Responds r => negb (ok r) || negb (bool_decide (is_Some (fr_json r)))
  | Rejects => true
  | Hangs => false
  end.

(** No stored value, or the stored one is at least [CACHE_TTL_MS] old. *)
Definition expired (cache : option ScriptCache) (t : Z) : Prop :=
  match cache with
  | Some c => CACHE_TTL_MS <= t - fetchedAt c
  | None => True
  end.

Definition called (s : Isolate) (c : OutboundCall) : Isolate :=
  mkIsolate (scriptCache s) (calls s ++ [c]).

(** A sequence of [get()] calls, each in the world of its own time. *)
Fixpoint getMany (env : Env) (ws : list World) (s : Isolate) : Isolate :=
  match ws with
  | [] => s
  | w :: rest => getMany env rest (snd (getScripts w env s))
  end.

(** The last code unit of a string. *)
Fixpoint lastChar (s : string) : option ascii :=
  match s with
  | EmptyString => None
  | String c EmptyString => Some c
  | String _ r => lastChar r
  end.

(** ** The dispatcher *)

(** A lookup fails when the call rejects or the response is not 2xx. *)
Definition lookupFailed (o : FetchOutcome) : bool :=
  match o with
  | Responds r => negb (ok r)
  | Rejects => true
  | Hangs => false
  end.

(** The backend call that a sitemap path leads to. *)
Definition sitemapCall (env : Env) (path : string) : OutboundCall :=
  if isDynamicSitemap path
  then generateSitemapCall env
         (if includes path "markets" then "markets" else "pillars")
  else serveSitemapCall env (dropLeadingSlash path).

(** Paths that reach the bot stage without any sitemap lookup. *)
Definition isPagePath (path : string) : bool :=
  negb (isStaticAsset path) && negb (String.eqb path "/__debug")
  && negb (isDynamicSitemap path) && negb (isStaticSitemap path).

Definition EMPTY_URLSET : string :=
  let q := String (ascii_of_nat 34) "" in
  "<?xml version=" +:+ q +:+ "1.0" +:+ q +:+ " encoding=" +:+ q +:+ "UTF-8"
  +:+ q +:+ "?><urlset xmlns=" +:+ q
  +:+ "http://www.sitemaps.org/schemas/sitemap/0.9" +:+ q +:+ "></urlset>".

(** [contentType.includes('text/html')] on the origin's response. *)
Definition isHtml (r : Response) : bool :=
  includes (get_or (resp_headers r) "Content-Type" "") "text/html".

(** *** Outbound calls and time limits *)

Definition noTimeout (c : OutboundCall) : Prop :=
  init_signal (call_init c) = None.

(** What a computation adds to the call log: calls without a time limit,
    none of which hangs unless the computation itself stays pending. *)
Definition traced (w : World) {A} (m : M A) : Prop :=
  forall s, exists new,
    calls (snd (m s)) = (calls s ++ new)%list /\
    Forall noTimeout new /\
    forall c, In c new -> backend w c = Hangs -> fst (m s) = Pending.

(** ** The prerender edge function (cache lookup) *)

Module Prerender.

(** A row of [prerendered_pages], as selected: [html, expires_at, hit_count].
    [expires_at] is the time value that [new Date(expires_at)] reads. *)
Record Row := mkRow {
  html : string;
  expires_at : option Z;
  hit_count : option Z
}.

(** The table, keyed by its unique [path]. *)
Abbreviation Table := (gmap string Row).

Record Request := mkRequest {
  method : string;
  path_param : option string    (* url.searchParams.get('path') *)
}.

(** A response; the body is [None] for [new Response(null, ...)]. *)
Record Response := mkResponse {
  status : Z;
  headers : gmap string string;
  body : option string
}.

(** What the platform decides: the clock, an exception raised while the
    request is read and the client is set up ([Some msg], with [msg] the
    message when the exception is an [Error]), and whether the select and
    the update come back with an error. *)
Record Platform := mkPlatform {
  clock : Z;
  setupException : option (option string);
  selectError : bool;
  updateError : bool
}.

(** The update that the handler starts and does not await. *)
Record Update := mkUpdate { upd_path : string; upd_hit_count : Z }.

Definition corsHeaders : list (string * string) :=
  [ ("Access-Control-Allow-Origin", "*");
    ("Access-Control-Allow-Headers",
     "authorization, x-client-info, apikey, content-type") ].

(** [JSON.stringify] of a string. *)
Definition hexLower (n : N) : ascii :=
  if (n <? 10)%N then ascii_of_N (48 + n) else ascii_of_N (87 + n).

Fixpoint jsonEscape (s : string) : string :=
  match s with
  | EmptyString => EmptyString
  | String c r =>
      let n := N_of_ascii c in
      (if (n =? 34)%N then String "\" (String c "")
       else if (n =? 92)%N then "\\"
       else if (n =? 8)%N then "\b"
       else if (n =? 12)%N then "\f"
       else if (n =? 10)%N then "\n"
       else if (n =? 13)%N then "\r"
       else if (n =? 9)%N then "\t"
       else if (n <? 32)%N then
         "\u00" +:+ String (hexLower (n / 16)) (String (hexLower (n mod 16)) "")
       else String c "")
      +:+ jsonEscape r
  end.

Definition DQ : string := String (ascii_of_nat 34) "".

Definition jsonString (s : string) : string := DQ +:+ jsonEscape s +:+ DQ.

(** [JSON.stringify({ k1: v1, ... })] for string values. *)
Fixpoint jsonFields (l : list (string * string)) : string :=
  match l with
  | [] => ""
  | [(k, v)] => jsonString k +:+ ":" +:+ jsonString v
  | (k, v) :: r => jsonString k +:+ ":" +:+ jsonString v +:+ "," +:+ jsonFields r
  end.

Definition jsonObject (l : list (string * string)) : string :=
  "{" +:+ jsonFields l +:+ "}".

(** The handler up to its [return]: the response, and the update it has
    started on the way. *)
Definition handle (p : Platform) (req : Request) (table : Table)
  : Response * option Update :=
  if String.eqb (method req) "OPTIONS" then
    (mkResponse 200 (object corsHeaders) None, None)
  else
    match setupException p with
    | Some e =>
        let message := default "Unknown error" e in
        (mkResponse 500
           (object (corsHeaders ++ [("Content-Type", "application/json")]))
           (Some (jsonObject [("error", message)])), None)
    | None =>
        let path :=
          match path_param req with
          | Some x => or_else x "/"
          | None => "/"
          end in
        let cached := if selectError p then None else table !! path in
        match cached with
        | Some row =>
            if truthy (html row) then
              let isExpired :=
                match expires_at row with
                | Some t => t <? clock p
                | None => false
                end in
              (mkResponse 200
                 (object (corsHeaders ++
                    [ ("Content-Type", "text/html; charset=utf-8");
                      ("X-Prerendered", "true");
                      ("X-Cache", if isExpired then "stale" else "hit");
                      ("Cache-Control", "public, max-age=3600, s-maxage=86400") ]))
                 (Some (html row)),
               Some (mkUpdate path
                       ((match hit_count row with
                         | Some n => if n =? 0 then 0 else n
                         | None => 0
                         end) + 1)))
            else
              (mkResponse 404
                 (object (corsHeaders ++
                    [ ("Content-Type", "application/json"); ("X-Cache", "miss") ]))
                 (Some (jsonObject [("error", "not_cached"); ("path", path)])),
               None)
        | None =>
            (mkResponse 404
               (object (corsHeaders ++
                  [ ("Content-Type", "application/json"); ("X-Cache", "miss") ]))
               (Some (jsonObject [("error", "not_cached"); ("path", path)])),
             None)
        end
    end.

(** The started update, run by the platform: it changes the row unless it
    comes back with an error, and its result goes to [() => {}]. *)
Definition runUpdate (p : Platform) (u : option Update) (table : Table) : Table :=
  match u with
  | Some (mkUpdate path n) =>
      if updateError p then table
      else alter (fun row => mkRow (html row) (expires_at row) (Some n)) path table
  | None => table
  end.

(** One request served: the response, and the table afterwards. *)
Definition serve (p : Platform) (req : Request) (table : Table)
  : Response * Table :=
  let '(resp, started) := handle p req table in
  (resp, runUpdate p started table).

Definition requestedPath (req : Request) : string :=
  match path_param req with
  | Some x => or_else x "/"
  | None => "/"
  end.

(** Fixtures: a stored page that has expired. *)
Definition aboutRow : Row :=
  mkRow "<html><head></head><body>About</body></html>" (Some 1600000000000) (Some 4).

Definition sampleTable : Table := {[ "/about" := aboutRow ]}.

Definition aboutLookup : Request := mkRequest "GET" (Some "/about").

Definition quietPlatform : Platform := mkPlatform 1700000000000 None false false.

End Prerender.

(** ** Fixtures *)

(** Fixtures for the script registry: a stored pair, a registry that answers,
    and one that is down. *)
Definition storedScripts : ScriptCache :=
  mkScriptCache ["<script src=/a.js></script>"; "<script src=/b.js></script>"]
                ["<script src=/c.js></script>"] 1699999000000.

Definition warmIsolate : Isolate := mkIsolate (Some storedScripts) [].

Definition registryDocument : ScriptData :=
  mkData (Some ["<script src=/new.js></script>"]) None.

Definition registryUp (c : OutboundCall) : FetchOutcome :=
  Responds (mkFetchResponse 200 ∅ "" (Some registryDocument)).

Definition registryDown (c : OutboundCall) : FetchOutcome := Rejects.

Definition worldAt (t : Z) (b : OutboundCall -> FetchOutcome) : World :=
  mkWorld t b Thrown (fun _ => "{}").

(** Fixtures: a backend without the requested sitemap, and an origin whose
    answer to an unknown path is a plain 404. *)
Definition sampleEnv : Env := mkEnv "https://project.supabase.co" "anon-key".

Definition coldIsolate : Isolate := mkIsolate None [].

Definition backendWithoutEntries (c : OutboundCall) : FetchOutcome :=
  Responds (mkFetchResponse 404
              (object [("content-type", "application/xml; charset=utf-8")])
              EMPTY_URLSET None).

Definition originNotFound : Response :=
  mkResponse 404 (object [("content-type", "text/plain")]) "Not found".

Definition worldWithoutSitemap : World :=
  mkWorld 1700000000000 backendWithoutEntries (Returned originNotFound)
          (fun _ => "{}").

Definition sitemapIndexRequest : Request :=
  mkRequest "example.com" "/sitemap-index.xml" (Some "Mozilla/5.0 (X11; Linux x86_64)").

(** An origin that serves the SPA shell, and a page request from a crawler
    and from a browser. *)
Definition originIndexHtml : Response :=
  mkResponse 200 (object [("content-type", "text/html; charset=utf-8")])
             "<html><head></head><body><div id=root></div></body></html>".

Definition worldWithoutPage : World :=
  mkWorld 1700000000000 backendWithoutEntries (Returned originIndexHtml)
          (fun _ => "{}").

Definition aboutAsGooglebot : Request :=
  mkRequest "example.com" "/about" (Some "Googlebot/2.1").

Definition aboutAsBrowser : Request :=
  mkRequest "example.com" "/about" (Some "Mozilla/5.0 (X11; Linux x86_64)").

(** An origin that answers a conditional request for the SPA shell with
    304, and one that sets two cookies with the shell. *)
Definition originNotModified : Response :=
  mkResponse 304 (object [("content-type", "text/html; charset=utf-8")]) "".

Definition worldWithNotModified : World :=
  mkWorld 1700000000000 backendWithoutEntries (Returned originNotModified)
          (fun _ => "{}").

Definition originWithTwoCookies : Response :=
  responseOf 200
    (object [ ("content-type", "text/html; charset=utf-8");
              ("set-cookie", "session=1; Path=/") ])
    ["theme=dark; Path=/"]
    "<html><head></head><body><div id=root></div></body></html>".

Definition worldWithTwoCookies : World :=
  mkWorld 1700000000000 backendWithoutEntries (Returned originWithTwoCookies)
          (fun _ => "{}").

(** A backend that never answers. *)
Definition worldWithHungBackend : World :=
  mkWorld 1700000000000 (fun _ => Hangs) (Returned originIndexHtml)
          (fun _ => "{}").

(** ** Further definitions: the query string that the backend reads *)

Module UrlQuery.

(** The value of a hexadecimal digit. *)
Definition hexVal (c : ascii) : option N :=
  let n := N_of_ascii c in
  if ((48 <=? n) && (n <=? 57))%N then Some (n - 48)%N
  else if ((65 <=? n) && (n <=? 70))%N then Some (n - 55)%N
  else if ((97 <=? n) && (n <=? 102))%N then Some (n - 87)%N
  else None.

(** Percent-decoding of the URL standard: a percent sign followed by two
    hexadecimal digits is the byte they write, any other code unit stands for
    itself. *)
Fixpoint percentDecode (s : string) : string :=
  match s with
  | EmptyString => EmptyString
  | String c r =>
      if Ascii.eqb c "%" then
        match r with
        | String h (String l r') =>
            match hexVal h, hexVal l with
            | Some a, Some b => String (ascii_of_N (16 * a + b)) (percentDecode r')
            | _, _ => String c (percentDecode r)
            end
        | _ => String c (percentDecode r)
        end
      else String c (percentDecode r)
  end.

(** In form encoding a plus sign stands for a space. *)
Fixpoint plusToSpace (s : string) : string :=
  match s with
  | EmptyString => EmptyString
  | String c r => String (if Ascii.eqb c "+" then " "%char else c) (plusToSpace r)
  end.

(** The decoded form of a name or value.  For a result in ASCII the UTF-8
    decoding that follows is the identity. *)
Definition formDecode (s : string) : string := percentDecode (plusToSpace s).

(** [s.split(sep)] for a separator of one code unit. *)
Fixpoint splitOn (sep : ascii) (s : string) : list string :=
  match s with
  | EmptyString => [EmptyString]
  | String c r =>
      if Ascii.eqb c sep then EmptyString :: splitOn sep r
      else match splitOn sep r with
           | h :: t => String c h :: t
           | [] => [String c EmptyString]
           end
  end.

(** A sequence [name=value] cut at its first equals sign; the value is empty
    when there is none. *)
Fixpoint cutAtEquals (s : string) : string * string :=
  match s with
  | EmptyString => (EmptyString, EmptyString)
  | String c r =>
      if Ascii.eqb c "=" then (EmptyString, r)
      else let '(n, v) := cutAtEquals r in (String c n, v)
  end.

(** The pairs of [new URLSearchParams(query)]. *)
Definition parseQuery (query : string) : list (string * string) :=
  map (fun seq => let '(n, v) := cutAtEquals seq in (formDecode n, formDecode v))
      (List.filter truthy (splitOn "&" query)).

(** [url.searchParams.get(name)]: the value of the first pair with that
    name. *)
Definition searchParamsGet (name query : string) : option string :=
  match List.find (fun nv => String.eqb (fst nv) name) (parseQuery query) with
  | Some nv => Some (snd nv)
  | None => None
  end.

End UrlQuery.

(** ** Further definitions: the routes in words *)

(** Every code unit of the string passes the test. *)
Fixpoint allChars (P : ascii -> bool) (s : string) : bool :=
  match s with
  | EmptyString => true
  | String c r => P c && allChars P r
  end.

(** The code units that [encodeURIComponent] writes. *)
Definition urlSafe (c : ascii) : bool := unreserved c || Ascii.eqb c "%".

(** Every code unit of the string is a decimal digit. *)
Fixpoint allDigits (s : string) : bool :=
  match s with
  | EmptyString => true
  | String c r => isDigit c && allDigits r
  end.

(** ** Further definitions: what a computation may call and throw *)

(** The calls that a computation adds to the log are taken, in order and
    each at most once, from [allowed]; and the computation stays pending only
    when the origin does or one of these calls is left unanswered. *)
Definition emits (w : World) (allowed : list OutboundCall) {A} (m : M A) : Prop :=
  forall s, exists new,
    calls (snd (m s)) = (calls s ++ new)%list /\
    sublist new allowed /\
    (fst (m s) = Pending ->
     next w = Pending \/ exists c, In c new /\ backend w c = Hangs).

(** A computation that rejects only when [P] holds. *)
Definition throwsOnlyIf (P : Prop) {A} (m : M A) : Prop :=
  forall s, fst (m s) = Thrown -> P.

(** The calls that a request may lead to, in the order of the pipeline. *)
Definition callsOf (env : Env) (request : Request) : list OutboundCall :=
  let path := url_pathname request in
  [scriptServiceCall env]
  ++ (if isDynamicSitemap path || isStaticSitemap path
      then [sitemapCall env path] else [])
  ++ (if isBot (userAgentOf request)
      then [prerenderCall env path (userAgentOf request)] else []).

(** ** Further definitions: the middleware without script injection *)

(** The object that the debug endpoint of version 1.0.0 serialises. *)
Record DebugInfoPlain := mkDebugInfoPlain {
  dbgp_middleware : string;
  dbgp_version : string;
  dbgp_hasSupabaseUrl : bool;
  dbgp_hasSupabaseKey : bool;
  dbgp_hostname : string;
  dbgp_userAgent : string;
  dbgp_isBot : bool;
  dbgp_timestamp : Z
}.

Section MiddlewarePlain.

Variable w : World.
Variable env : Env.
Variable stringifyPlain : DebugInfoPlain -> string.

Definition debugResponsePlain (request : Request) (userAgent : string) : M Response :=
  let info :=
    mkDebugInfoPlain "pages-middleware" "1.0.0"
      (truthy (SUPABASE_URL env)) (truthy (SUPABASE_ANON_KEY env))
      (url_hostname request)
      (String.substring 0 80 userAgent)
      (isBot userAgent)
      (now w) in
  ret (mkResponse 200 (object [("Content-Type", "application/json")])
                  (stringifyPlain info)).

(** Bot detection: the prerendered page as the backend has it. *)
Definition prerenderForBotPlain (path userAgent : string) : M (option Response) :=
  if isBot userAgent then
    try_catch
      (do res <- fetch w (prerenderCall env path userAgent);
       if ok res then
         ret (Some (mkResponse 200
                (object [ ("Content-Type", "text/html; charset=utf-8");
                          ("X-Prerendered", "true");
                          ("X-Cache", get_or (fr_headers res) "X-Cache" "hit");
                          ("Cache-Control", "public, max-age=3600") ])
                (fr_text res)))
       else ret None)
      (ret None)
  else ret None.

(** The dispatcher of version 1.0.0; its sitemap stages are those of
    version 2.0.0. *)
Definition onRequestPlain (request : Request) : M Response :=
  let path := url_pathname request in
  let userAgent := userAgentOf request in
  if isStaticAsset path then await (next w)
  else if String.eqb path "/__debug" then debugResponsePlain request userAgent
  else
    do r <- dynamicSitemap w env path;
    match r with
    | Some resp => ret resp
    | None =>
        do r <- staticSitemap w env path;
        match r with
        | Some resp => ret resp
        | None =>
            do r <- prerenderForBotPlain path userAgent;
            match r with
            | Some resp => ret resp
            | None => await (next w)
            end
        end
    end.

End MiddlewarePlain.

(** ** Further definitions: comparing the two dispatchers *)

(** An HTML answer of the origin that the rebuild of version 2.0.0 gives
    back as it was: its status is one with which a response takes a body, it
    has no second [Set-Cookie] line, and its body is what reading it as text
    and writing it again gives (well-formed UTF-8 without a byte order
    mark). *)
Definition rebuildable (r : Response) : Prop :=
  acceptsBody (resp_status r) = true /\
  resp_more_cookies r = [] /\
  text (resp_body r) = resp_body r.

(** Two responses with the same status, body and [Set-Cookie] lines, and the
    same headers but possibly for [X-Scripts-Injected: true] on the first. *)
Definition alike (r2 r1 : Response) : Prop :=
  resp_status r2 = resp_status r1 /\ resp_body r2 = resp_body r1 /\
  resp_more_cookies r2 = resp_more_cookies r1 /\
  (resp_headers r2 = resp_headers r1 \/
   resp_headers r2 = <["X-Scripts-Injected" := "true"]> (resp_headers r1)).

(** Two outcomes of the same kind, with related values when both return. *)
Definition agree {A} (R : A -> A -> Prop) (o2 o1 : outcome A) : Prop :=
  match o2, o1 with
  | Returned a, Returned b => R a b
  | Thrown, Thrown => True
  | Pending, Pending => True
  | _, _ => False
  end.

(** The relation of two optional early returns. *)
Definition alikeOption (o2 o1 : option Response) : Prop :=
  match o2, o1 with
  | Some r2, Some r1 => alike r2 r1
  | None, None => True
  | _, _ => False
  end.

(** ** Further definitions: text utilities of the generators *)

Module JsText.

(** [s.replace(/c/g, by)] for one code unit [c] and a replacement text
    without a dollar sign. *)
Fixpoint replaceAllChar (c : ascii) (by_ : string) (s : string) : string :=
  match s with
  | EmptyString => EmptyString
  | String x r =>
      if Ascii.eqb x c then by_ +:+ replaceAllChar c by_ r
      else String x (replaceAllChar c by_ r)
  end.

(** [s.replace(/[P]+/g, by)]: every maximal run of code units in the class
    [P] becomes one [by]; [inRun] tells whether the code unit before was in
    the class. *)
Fixpoint replaceRuns (P : ascii -> bool) (by_ : string) (inRun : bool) (s : string)
  : string :=
  match s with
  | EmptyString => EmptyString
  | String x r =>
      if P x then
        if inRun then replaceRuns P by_ true r
        else by_ +:+ replaceRuns P by_ true r
      else String x (replaceRuns P by_ false r)
  end.

(** [s.replace(/[^P]/g, '')]: the code units in the class [P] are kept. *)
Fixpoint keepChars (P : ascii -> bool) (s : string) : string :=
  match s with
  | EmptyString => EmptyString
  | String x r => if P x then String x (keepChars P r) else keepChars P r
  end.

(** The class [\s] on code units below 256. *)
Definition isSpace (c : ascii) : bool :=
  let n := N_of_ascii c in
  ((9 <=? n) && (n <=? 13))%N || (n =? 32)%N || (n =? 160)%N.

(** The class [[a-z0-9-]]. *)
Definition isSlugChar (c : ascii) : bool :=
  let n := N_of_ascii c in
  ((97 <=? n) && (n <=? 122))%N || ((48 <=? n) && (n <=? 57))%N || (n =? 45)%N.

Definition isDash (c : ascii) : bool := Ascii.eqb c "-".

(** [s.replace(/^-|-$/g, '')]: a dash at the start and a dash at the end are
    removed. *)
Definition dropLeadingDash (s : string) : string :=
  match s with
  | String c r => if isDash c then r else s
  | EmptyString => EmptyString
  end.

Fixpoint dropTrailingDash (s : string) : string :=
  match s with
  | EmptyString => EmptyString
  | String c EmptyString => if isDash c then EmptyString else s
  | String c r => String c (dropTrailingDash r)
  end.

Definition slugify (text : string) : string :=
  String.substring 0 80
    (dropTrailingDash
       (dropLeadingDash
          (replaceRuns isDash "-" false
             (keepChars isSlugChar
                (replaceRuns isSpace "-" false
                   (replaceAllChar "&" "and" (toLowerCase text))))))).

Definition QUOT : ascii := ascii_of_nat 34.

(** [escapeXml]: five passes over the whole text, the ampersand first. *)
Definition escapeXml (str : string) : string :=
  replaceAllChar "'" "&apos;"
    (replaceAllChar QUOT "&quot;"
       (replaceAllChar ">" "&gt;"
          (replaceAllChar "<" "&lt;"
             (replaceAllChar "&" "&amp;" str)))).

(** [escapeHtml] of the cache builder. *)
Definition escapeHtml (text : string) : string :=
  if negb (truthy text) then ""
  else
    replaceAllChar "'" "&#039;"
      (replaceAllChar QUOT "&quot;"
         (replaceAllChar ">" "&gt;"
            (replaceAllChar "<" "&lt;"
               (replaceAllChar "&" "&amp;" text)))).

(** What one code unit becomes when a text is escaped in one pass; [apos]
    is the entity of the apostrophe. *)
Definition entityOf (apos : string) (c : ascii) : string :=
  if Ascii.eqb c "&" then "&amp;"
  else if Ascii.eqb c "<" then "&lt;"
  else if Ascii.eqb c ">" then "&gt;"
  else if Ascii.eqb c QUOT then "&quot;"
  else if Ascii.eqb c "'" then apos
  else String c "".

(** The code units that end or open markup and attribute values. *)
Definition isMarkup (c : ascii) : bool :=
  Ascii.eqb c "<" || Ascii.eqb c ">" || Ascii.eqb c QUOT || Ascii.eqb c "'".

Fixpoint escapeEach (apos : string) (s : string) : string :=
  match s with
  | EmptyString => EmptyString
  | String c r => entityOf apos c +:+ escapeEach apos r
  end.

End JsText.

(** ** Further definitions: the dynamic sitemap generator *)

Module GenerateSitemap.

Import JsText.

Definition SITE_URL : string := "https://YOUR-SITE.com".

Record SitemapUrl := mkUrl {
  loc : string;
  lastmod : option string;
  changefreq : string;
  priority : string
}.

(** A row of [markets], as selected: [title, updated_at, status]; the status
    only serves the filter. *)
Record Market := mkMarket { title : string; updated_at : option string }.

Definition urlEntry (url : SitemapUrl) : string :=
  "  <url>" +:+ LF
  +:+ "    <loc>" +:+ escapeXml (SITE_URL +:+ loc url) +:+ "</loc>"
  +:+ (match lastmod url with
       | Some d => if truthy d
                   then LF +:+ "    <lastmod>" +:+ d +:+ "</lastmod>"
                   else ""
       | None => ""
       end)
  +:+ LF
  +:+ "    <changefreq>" +:+ changefreq url +:+ "</changefreq>" +:+ LF
  +:+ "    <priority>" +:+ priority url +:+ "</priority>" +:+ LF
  +:+ "  </url>".

Definition generateSitemapXml (urls : list SitemapUrl) : string :=
  let q := String QUOT "" in
  "<?xml version=" +:+ q +:+ "1.0" +:+ q +:+ " encoding=" +:+ q +:+ "UTF-8"
  +:+ q +:+ "?>" +:+ LF
  +:+ "<urlset xmlns=" +:+ q +:+ "http://www.sitemaps.org/schemas/sitemap/0.9"
  +:+ q +:+ ">" +:+ LF
  +:+ join LF (map urlEntry urls) +:+ LF
  +:+ "</urlset>".

Definition batchSize : nat := 1000.

(** [fetchAllRows]: [range from to] is the answer of the query for the rows
    [from] to [to], [None] when it comes back with an error.  The loop of
    the source has no bound; [fuel] counts its rounds, and the result is
    [None] when they run out. *)
Fixpoint fetchAllRows {Row} (fuel : nat) (range : nat -> nat -> option (list Row))
         (offset : nat) (allRows : list Row) : option (list Row) :=
  match fuel with
  | O => None
  | S fuel' =>
      match range offset (offset + batchSize - 1)%nat with
      | None => Some allRows
      | Some data =>
          if (List.length data =? 0)%nat then Some allRows
          else
            let allRows' := (allRows ++ data)%list in
            if (List.length data <? batchSize)%nat then Some allRows'
            else fetchAllRows fuel' range (offset + batchSize)%nat allRows'
      end
  end.

(** [m.updated_at?.split('T')[0]] *)
Definition lastmodOf (m : Market) : option string :=
  match updated_at m with
  | Some u => Some (match UrlQuery.splitOn "T" u with h :: _ => h | [] => "" end)
  | None => None
  end.

(** The [forEach] over the markets, with the set of slugs seen so far and
    the urls pushed so far. *)
Fixpoint marketUrls (markets : list Market) (seen : gset string)
         (urls : list SitemapUrl) : list SitemapUrl :=
  match markets with
  | [] => urls
  | m :: rest =>
      let slug := slugify (title m) in
      if decide (slug ∈ seen) then marketUrls rest seen urls
      else marketUrls rest ({[slug]} ∪ seen)
             (urls ++ [mkUrl ("/market/" +:+ slug) (lastmodOf m) "daily" "0.7"])%list
  end.

(** What the platform decides: an exception raised while the request is read
    and the client is set up, and the answers of the [markets] query with the
    filter on the status. *)
Record Platform := mkPlatform {
  setupException : bool;
  marketsRange : nat -> nat -> option (list Market)
}.

Record Request := mkRequest {
  method : string;
  type_param : option string     (* url.searchParams.get('type') *)
}.

Definition corsHeaders : list (string * string) :=
  [ ("Access-Control-Allow-Origin", "*");
    ("Access-Control-Allow-Headers",
     "authorization, x-client-info, apikey, content-type") ].

(** The handler; [None] when the rounds of [fetchAllRows] run out. *)
Definition handle (fuel : nat) (p : Platform) (req : Request)
  : option Prerender.Response :=
  if String.eqb (method req) "OPTIONS" then
    Some (Prerender.mkResponse 200 (object corsHeaders) None)
  else if setupException p then
    Some (Prerender.mkResponse 500
            (object (corsHeaders ++
                     [("Content-Type", "application/xml; charset=utf-8")]))
            (Some EMPTY_URLSET))
  else
    let type :=
      match type_param req with
      | Some t => or_else t "all"
      | None => "all"
      end in
    let respond urls :=
      Prerender.mkResponse 200
        (object (corsHeaders ++
                 [ ("Content-Type", "application/xml; charset=utf-8");
                   ("Cache-Control", "public, max-age=3600") ]))
        (Some (generateSitemapXml urls)) in
    if String.eqb type "markets" || String.eqb type "all" then
      match fetchAllRows fuel (marketsRange p) 0 [] with
      | Some markets => Some (respond (marketUrls markets ∅ []))
      | None => None
      end
    else Some (respond []).

(** A table read in a stable order: the rows [from] to [to] of [rows]. *)
Definition rangeOf {Row} (rows : list Row) (from to : nat) : option (list Row) :=
  Some (take (to - from + 1) (drop from rows)).

End GenerateSitemap.

(** ** Further definitions: the static sitemap function *)

Module ServeSitemap.

(** A row of [static_sitemaps], as selected: [content, generated_at,
    url_count]. *)
Record Row := mkRow {
  content : string;
  generated_at : option string;
  url_count : option Z
}.

Record Request := mkRequest {
  method : string;
  file_param : option string    (* url.searchParams.get('file') *)
}.

(** What the platform decides: an exception raised while the request is read
    and the client is set up, and whether the select comes back with an
    error of its own. *)
Record Platform := mkPlatform {
  setupException : bool;
  selectError : bool
}.

Definition corsHeaders : list (string * string) :=
  [ ("Access-Control-Allow-Origin", "*");
    ("Access-Control-Allow-Headers",
     "authorization, x-client-info, apikey, content-type") ].

Definition emptyUrlset (status : Z) : Prerender.Response :=
  Prerender.mkResponse status
    (object (corsHeaders ++ [("Content-Type", "application/xml; charset=utf-8")]))
    (Some EMPTY_URLSET).

(** [String(n)] for an integer. *)
Definition numberToString (n : Z) : string := NilZero.string_of_int (Z.to_int n).

(** The handler.  [.single()] answers with an error when no row has the
    filename. *)
Definition handle (p : Platform) (req : Request) (table : gmap string Row)
  : Prerender.Response :=
  if String.eqb (method req) "OPTIONS" then
    Prerender.mkResponse 200 (object corsHeaders) None
  else if setupException p then emptyUrlset 500
  else
    let filename :=
      match file_param req with
      | Some f => or_else f "sitemap-index.xml"
      | None => "sitemap-index.xml"
      end in
    let data := if selectError p then None else table !! filename in
    match data with
    | Some row =>
        if truthy (content row) then
          Prerender.mkResponse 200
            (object (corsHeaders ++
               [ ("Content-Type", "application/xml; charset=utf-8");
                 ("Cache-Control", "public, max-age=1800");
                 ("X-Sitemap-Generated",
                  match generated_at row with Some g => g | None => "" end);
                 ("X-Sitemap-Url-Count",
                  numberToString (match url_count row with
                                  | Some n => if n =? 0 then 0 else n
                                  | None => 0
                                  end)) ]))
            (Some (content row))
        else emptyUrlset 404
    | None => emptyUrlset 404
    end.

End ServeSitemap.

(** ** Further definitions: the middleware in front of the edge functions *)


Definition isAscii (c : ascii) : bool := (N_of_ascii c <? 128)%N.







Definition sitemapTable : gmap string ServeSitemap.Row :=
  {[ "sitemap-index.xml" := ServeSitemap.mkRow "<sitemapindex/>" None (Some 2) ]}.


(** * Properties *)

(** ** The definitions on concrete inputs *)

Example isStaticAsset_upper_case : isStaticAsset "/assets/App.JS" = true.
Proof. reflexivity. Qed.

Example isStaticAsset_xml : isStaticAsset "/sitemap-index.xml" = false.
Proof. reflexivity. Qed.

Example isSitemapShard_numbered : isSitemapShard "/sitemap-markets-12.xml" = true.
Proof. reflexivity. Qed.

Example isSitemapShard_needs_digit : isSitemapShard "/sitemap-markets-.xml" = false.
Proof. reflexivity. Qed.

Example isSitemapShard_anchored : isSitemapShard "/sitemap-pillars-1.xmlx" = false.
Proof. reflexivity. Qed.

Example encodeURIComponent_path :
  encodeURIComponent "/market/a b?c" = "%2Fmarket%2Fa%20b%3Fc".
Proof. reflexivity. Qed.

Example isBot_browser :
  isBot "Mozilla/5.0 (Windows NT 10.0; Win64; x64) AppleWebKit/537.36 Chrome/120 Safari/537.36"
  = false.
Proof. reflexivity. Qed.

Example replace_first_only :
  replace "a</head>b</head>c" "</head>" "X</head>" = "aX</head>b</head>c".
Proof. reflexivity. Qed.

Example replace_dollar_dollar : replace "a-b" "-" "$$" = "a$b".
Proof. reflexivity. Qed.

Example replace_dollar_ampersand : replace "a-b" "-" "[$&]" = "a[-]b".
Proof. reflexivity. Qed.

Example replace_dollar_digit : replace "a-b" "-" "$1" = "a$1b".
Proof. reflexivity. Qed.

(** Reading a body as text: well-formed UTF-8 stays, a byte order mark at
    the start goes, and every ill-formed sequence gives way to U+FFFD (one for
    a sequence cut short, one for each byte that can start none). *)
Example text_two_byte_sequence :
  let e_acute := String (ascii_of_N 195) (String (ascii_of_N 169) "") in
  text ("caf" +:+ e_acute) = "caf" +:+ e_acute.
Proof. reflexivity. Qed.

Example text_drops_byte_order_mark : text (BOM +:+ "<html>") = "<html>".
Proof. reflexivity. Qed.

Example text_replaces_stray_byte :
  text ("a" +:+ String (ascii_of_N 255) "b") = "a" +:+ REPLACEMENT +:+ "b".
Proof. reflexivity. Qed.

Example text_replaces_cut_sequence :
  text ("a" +:+ String (ascii_of_N 226) (String (ascii_of_N 130) ""))
  = "a" +:+ REPLACEMENT.
Proof. reflexivity. Qed.

Example text_rereads_the_byte_that_ends_a_sequence :
  text (String (ascii_of_N 226) "(") = REPLACEMENT +:+ "(".
Proof. reflexivity. Qed.

Example text_replaces_surrogate :
  text (String (ascii_of_N 237) (String (ascii_of_N 160) (String (ascii_of_N 128) "")))
  = REPLACEMENT +:+ REPLACEMENT +:+ REPLACEMENT.
Proof. reflexivity. Qed.

(** A crawler asking for a page that the backend has: the prerendered page
    with the stored scripts injected, and the cache state of the backend. *)
Example googlebot_gets_prerendered_page :
  let page (c : OutboundCall) :=
    Responds (mkFetchResponse 200 (object [("x-cache", "stale")])
                "<html><head></head><body>About</body></html>" None) in
  let w := mkWorld 1699999060000 page Thrown (fun _ => "{}") in
  fst (onRequest w sampleEnv aboutAsGooglebot
         (mkIsolate (Some (mkScriptCache ["<script src=/a.js></script>"] [] 1699999000000)) []))
  = Returned (mkResponse 200
      (object [ ("Content-Type", "text/html; charset=utf-8");
                ("X-Prerendered", "true");
                ("X-Scripts-Injected", "true");
                ("X-Cache", "stale");
                ("Cache-Control", "public, max-age=3600") ])
      ("<html><head><script src=/a.js></script>" +:+ LF
       +:+ "</head><body>About</body></html>")).
Proof. vm_compute. reflexivity. Qed.

(** ** Facts about the string functions *)

Section StringFacts.

Lemma startsWith_spec p s :
  startsWith p s = true <-> exists b, s = p +:+ b.
Proof.
  revert s; induction p as [|a p IH]; intros s; simpl.
  - split; [intros _; exists s; reflexivity | reflexivity].
  - destruct s as [|c s].
    + split; [discriminate | intros [b Hb]; discriminate].
    + destruct (Ascii.eqb_spec a c) as [->|Hne].
      * rewrite IH. split; intros [b Hb]; exists b; simpl in *; congruence.
      * split; [discriminate | intros [b Hb]; simpl in Hb; congruence].
Qed.

Lemma includes_spec s p : includes s p = true <-> occurs_in p s.
Proof.
  unfold occurs_in. induction s as [|c s IH]; simpl.
  - destruct (startsWith p "") eqn:E.
    + apply startsWith_spec in E as [b Hb].
      split; [intros _; exists "", b; exact Hb | reflexivity].
    + split; [discriminate|]. intros (a & b & H).
      destruct a; simpl in H; [|discriminate].
      assert (startsWith p "" = true) by (apply startsWith_spec; eauto).
      congruence.
  - destruct (startsWith p (String c s)) eqn:E.
    + apply startsWith_spec in E as [b Hb].
      split; [intros _; exists "", b; exact Hb | reflexivity].
    + rewrite IH. split.
      * intros (a & b & ->). exists (String c a), b. reflexivity.
      * intros (a & b & H). destruct a as [|c' a]; simpl in H.
        -- assert (startsWith p (String c s) = true)
             by (apply startsWith_spec; eauto).
           congruence.
        -- injection H as _ ->. eauto.
Qed.

Lemma toLowerCase_app a b :
  toLowerCase (a +:+ b) = toLowerCase a +:+ toLowerCase b.
Proof. induction a as [|c a IH]; simpl; [reflexivity | now rewrite IH]. Qed.

Lemma truthy_false s : truthy s = false <-> s = "".
Proof. destruct s; simpl; split; congruence. Qed.

Lemma occurs_in_empty p : occurs_in p "" -> p = "".
Proof.
  intros (a & b & H). destruct a; simpl in H; [|discriminate].
  destruct p; [reflexivity | discriminate].
Qed.

End StringFacts.

Lemma BOT_AGENTS_nonempty : Forall (fun bot => bot <> "") BOT_AGENTS.
Proof. unfold BOT_AGENTS. repeat constructor; discriminate. Qed.

(** C4. [isBot ua] is true exactly when the lowercased User-Agent contains
    one of the entries of [BOT_AGENTS]; hence it is true for every string
    containing a case variant of an entry, and false for the empty string and
    for every string whose lowercased form contains none of the entries. *)
Theorem isBot_iff_lowercased_contains :
  (forall ua,
      isBot ua = true <->
      exists bot, In bot BOT_AGENTS /\ occurs_in bot (toLowerCase ua)) /\
  (forall ua pre v post bot,
      In bot BOT_AGENTS -> toLowerCase v = bot -> ua = pre +:+ v +:+ post ->
      isBot ua = true) /\
  isBot "" = false /\
  (forall ua,
      (forall bot, In bot BOT_AGENTS -> ~ occurs_in bot (toLowerCase ua)) ->
      isBot ua = false).
Proof.
  assert (Hiff : forall ua,
      isBot ua = true <->
      exists bot, In bot BOT_AGENTS /\ occurs_in bot (toLowerCase ua)).
  { intros ua. unfold isBot.
    destruct (truthy ua) eqn:Et; cbv beta iota zeta delta [negb].
    - rewrite existsb_exists. split.
      + intros (bot & Hin & Hinc). exists bot. split; [exact Hin|].
        now apply includes_spec.
      + intros (bot & Hin & Hocc). exists bot. split; [exact Hin|].
        now apply includes_spec.
    - apply truthy_false in Et. subst ua. split; [discriminate|].
      intros (bot & Hin & Hocc). apply occurs_in_empty in Hocc. subst bot.
      pose proof BOT_AGENTS_nonempty as Hne.
      rewrite List.Forall_forall in Hne. now apply Hne in Hin. }
  split; [exact Hiff|]. split; [|split].
  - intros ua pre v post bot Hin Hv ->. apply Hiff. exists bot.
    split; [exact Hin|]. exists (toLowerCase pre), (toLowerCase post).
    now rewrite !toLowerCase_app, Hv.
  - reflexivity.
  - intros ua Hnone. destruct (isBot ua) eqn:E; [|reflexivity].
    apply Hiff in E as (bot & Hin & Hocc). now apply Hnone in Hocc.
Qed.

Lemma isBot_iff_lowercased_contains_witness :
  isBot "Mozilla/5.0 (compatible; GoogleBot/2.1)" = true.
Proof.
  apply (proj1 (proj2 isBot_iff_lowercased_contains)
           "Mozilla/5.0 (compatible; GoogleBot/2.1)"
           "Mozilla/5.0 (compatible; " "GoogleBot" "/2.1)" "googlebot").
  - unfold BOT_AGENTS. simpl. left. reflexivity.
  - reflexivity.
  - reflexivity.
Defined.

(** ** Facts about the injector *)

Section ReplaceFacts.

Lemma string_app_assoc (a b c : string) : (a +:+ b) +:+ c = a +:+ b +:+ c.
Proof. induction a as [|x a IH]; simpl; [reflexivity | now rewrite IH]. Qed.

Lemma string_app_nil_r (a : string) : a +:+ "" = a.
Proof. induction a as [|x a IH]; simpl; [reflexivity | now rewrite IH]. Qed.

Lemma stripPrefix_Some p s rest :
  stripPrefix p s = Some rest <-> s = p +:+ rest.
Proof.
  revert s; induction p as [|a p IH]; intros s; simpl.
  - split; congruence.
  - destruct s as [|c s]; [split; discriminate|].
    destruct (Ascii.eqb_spec a c) as [->|Hne].
    + rewrite IH. split; congruence.
    + split; [discriminate | congruence].
Qed.

Lemma stripPrefix_startsWith p s :
  startsWith p s = match stripPrefix p s with Some _ => true | None => false end.
Proof.
  revert s; induction p as [|a p IH]; intros s; simpl; [reflexivity|].
  destruct s as [|c s]; [reflexivity|].
  destruct (Ascii.eqb a c); [apply IH | reflexivity].
Qed.

(** [findFirst] splits the text around an occurrence... *)
Lemma findFirst_Some pat s before after :
  findFirst pat s = Some (before, after) -> s = before +:+ pat +:+ after.
Proof.
  revert before after; induction s as [|c s IH]; intros before after; simpl.
  - destruct (stripPrefix pat "") eqn:E; [|discriminate].
    intros [= <- <-]. now apply stripPrefix_Some in E.
  - destruct (stripPrefix pat (String c s)) eqn:E.
    + intros [= <- <-]. now apply stripPrefix_Some in E.
    + destruct (findFirst pat s) as [[b a]|] eqn:F; [|discriminate].
      intros [= <- <-]. simpl. f_equal. now apply IH.
Qed.

(** ... which is the leftmost one: no occurrence starts earlier. *)
Lemma findFirst_leftmost pat s before after :
  findFirst pat s = Some (before, after) ->
  forall b' a', s = b' +:+ pat +:+ a' ->
                (String.length before <= String.length b')%nat.
Proof.
  revert before after; induction s as [|c s IH]; intros before after; simpl.
  - destruct (stripPrefix pat ""); [|discriminate].
    intros [= <- <-] b' a' _. simpl. lia.
  - destruct (stripPrefix pat (String c s)) eqn:E.
    + intros [= <- <-] b' a' _. simpl. lia.
    + destruct (findFirst pat s) as [[b a]|] eqn:F; [|discriminate].
      intros [= <- <-] b' a' Hs. destruct b' as [|c' b'].
      * simpl in Hs. apply stripPrefix_Some in Hs. congruence.
      * simpl in Hs. injection Hs as _ Hs. simpl.
        specialize (IH b a eq_refl b' a' Hs). lia.
Qed.

Lemma findFirst_None pat s :
  findFirst pat s = None <-> includes s pat = false.
Proof.
  induction s as [|c s IH]; simpl; rewrite stripPrefix_startsWith.
  - destruct (stripPrefix pat ""); split; congruence.
  - destruct (stripPrefix pat (String c s)); [split; congruence|].
    rewrite <- IH. destruct (findFirst pat s) as [[b a]|]; split; congruence.
Qed.

Lemma includes_dollar_cons c t :
  includes (String c t) "$"
  = if Ascii.eqb "$" c then true else includes t "$".
Proof. cbn [includes startsWith]. now destruct (Ascii.eqb "$" c). Qed.

(** A replacement text without a dollar sign is inserted as it is. *)
Lemma GetSubstitution_plain m b a tmpl :
  includes tmpl "$" = false -> GetSubstitution m b a tmpl = tmpl.
Proof.
  induction tmpl as [|c t IH]; [reflexivity|].
  rewrite includes_dollar_cons. cbn [GetSubstitution].
  rewrite (Ascii.eqb_sym c "$").
  destruct (Ascii.eqb "$" c); [discriminate|].
  intros H. now rewrite IH.
Qed.

Lemma includes_dollar_app a b :
  includes a "$" = false -> includes b "$" = false ->
  includes (a +:+ b) "$" = false.
Proof.
  induction a as [|c a IH]; [auto|].
  change (String c a +:+ b) with (String c (a +:+ b)).
  rewrite !includes_dollar_cons.
  destruct (Ascii.eqb "$" c); [discriminate | auto].
Qed.

Lemma replace_absent s pat repl :
  includes s pat = false -> replace s pat repl = s.
Proof. intros H. apply findFirst_None in H. unfold replace. now rewrite H. Qed.

Lemma replace_plain s pat frag before after :
  findFirst pat s = Some (before, after) ->
  includes frag "$" = false -> includes pat "$" = false ->
  replace s pat (frag +:+ LF +:+ pat) = before +:+ frag +:+ LF +:+ pat +:+ after.
Proof.
  intros F Hf Hp. unfold replace. rewrite F.
  rewrite GetSubstitution_plain.
  - now rewrite !string_app_assoc.
  - apply includes_dollar_app; [exact Hf|].
    apply includes_dollar_app; [reflexivity | exact Hp].
Qed.

End ReplaceFacts.

(** What the injector does guarantee: an empty fragment or an absent closing
    tag leaves the section alone, and a fragment without a dollar sign goes,
    followed by a line feed, before the first closing tag. *)
Lemma injectScripts_empty html : injectScripts html (mkScripts "" "") = html.
Proof. reflexivity. Qed.

Lemma injectScripts_head_only html h before after :
  h <> "" -> includes h "$" = false ->
  findFirst "</head>" html = Some (before, after) ->
  injectScripts html (mkScripts h "")
  = before +:+ h +:+ LF +:+ "</head>" +:+ after.
Proof.
  intros Hne Hd F. unfold injectScripts. cbn [head body].
  assert (truthy h = true) as -> by (destruct h; [congruence | reflexivity]).
  cbn [truthy]. now apply replace_plain.
Qed.

Lemma injectScripts_body_only html b before after :
  b <> "" -> includes b "$" = false ->
  findFirst "</body>" html = Some (before, after) ->
  injectScripts html (mkScripts "" b)
  = before +:+ b +:+ LF +:+ "</body>" +:+ after.
Proof.
  intros Hne Hd F. unfold injectScripts. cbn [head body].
  assert (truthy b = true) as -> by (destruct b; [congruence | reflexivity]).
  cbn [truthy]. now apply replace_plain.
Qed.

Lemma injectScripts_no_closing_body html b :
  includes html "</body>" = false ->
  injectScripts html (mkScripts "" b) = html.
Proof.
  intros H. unfold injectScripts. cbn [head body truthy].
  destruct (truthy b); [now apply replace_absent | reflexivity].
Qed.

Lemma injectScripts_no_closing_head html h :
  includes html "</head>" = false ->
  injectScripts html (mkScripts h "") = html.
Proof.
  intros H. unfold injectScripts. cbn [head body truthy].
  destruct (truthy h); [now apply replace_absent | reflexivity].
Qed.

(** C7. The insertion is not verbatim for every fragment: [replace] reads the
    fragment as a replacement pattern.  With the head fragment
    [<script>var cur='$';</script>] the two code units [$'] are expanded to
    the text that follows the closing head tag, so the document does not
    receive the fragment before [</head>]. *)
Theorem injectScripts_expands_dollar_patterns :
  let html := "<html><head></head><body>x</body></html>" in
  let frag := "<script>var cur='$';</script>" in
  findFirst "</head>" html = Some ("<html><head>", "<body>x</body></html>") /\
  injectScripts html (mkScripts frag "")
  = "<html><head><script>var cur='<body>x</body></html>;</script>" +:+ LF
    +:+ "</head><body>x</body></html>" /\
  injectScripts html (mkScripts frag "")
  <> "<html><head>" +:+ frag +:+ LF +:+ "</head><body>x</body></html>".
Proof. cbv zeta. split; [reflexivity|]. split; [reflexivity|]. discriminate. Qed.

(** ** Facts about the script registry cache *)

Ltac unfold_monad :=
  unfold bind, try_catch, ret, throw, await, fetch,
         read_scriptCache, write_scriptCache, called in *.

Section ScriptRegistryFacts.

Variable w : World.
Variable env : Env.

Let call := scriptServiceCall env.

Lemma refreshScripts_success s t r data :
  backend w call = Responds r -> ok r = true -> fr_json r = Some data ->
  let c := mkScriptCache (default [] (data_head data))
                         (default [] (data_body data)) t in
  refreshScripts w env t s
  = (Returned (joined c), mkIsolate (Some c) (calls s ++ [call])).
Proof.
  intros Hb Hok Hj. unfold refreshScripts. unfold_monad.
  fold call. rewrite Hb, Hok, Hj. reflexivity.
Qed.

Lemma refreshScripts_failure s t :
  registryFailed (backend w call) = true ->
  refreshScripts w env t s
  = (Returned (match scriptCache s with
               | Some c => joined c
               | None => mkScripts "" ""
               end), called s call).
Proof.
  intros Hf. unfold refreshScripts. unfold_monad. fold call.
  destruct (backend w call) as [r| |]; simpl in Hf; try discriminate.
  - destruct (ok r); simpl in Hf.
    + destruct (fr_json r) as [d|]; [discriminate|]. simpl.
      now destruct (scriptCache s).
    + simpl. now destruct (scriptCache s).
  - simpl. now destruct (scriptCache s).
Qed.

Lemma getScripts_expired s :
  expired (scriptCache s) (now w) ->
  getScripts w env s = refreshScripts w env (now w) s.
Proof.
  intros He. unfold getScripts. unfold bind at 1. unfold read_scriptCache.
  destruct (scriptCache s) as [c|]; [|reflexivity].
  simpl in He. destruct (Z.ltb_spec (now w - fetchedAt c) CACHE_TTL_MS);
    [lia | reflexivity].
Qed.

Lemma getScripts_fresh s c :
  scriptCache s = Some c -> now w - fetchedAt c < CACHE_TTL_MS ->
  getScripts w env s = (Returned (joined c), s).
Proof.
  intros Hc Hf. unfold getScripts. unfold_monad. rewrite Hc.
  destruct (Z.ltb_spec (now w - fetchedAt c) CACHE_TTL_MS); [reflexivity | lia].
Qed.

End ScriptRegistryFacts.

(** C6. [getScripts]: a stored value younger than the TTL is returned and the
    backend is not called; otherwise the backend is called once, and on
    success the stored value and timestamp are replaced and the new value is
    returned, on failure the stored value is returned if there is one and the
    empty pair if there is none.  The value returned is the stored pair with
    each sequence joined by line feeds. *)
Theorem getScripts_fresh_refresh_or_stale w env s :
  let t := now w in
  let call := scriptServiceCall env in
  (forall c, scriptCache s = Some c -> t - fetchedAt c < CACHE_TTL_MS ->
             getScripts w env s = (Returned (joined c), s)) /\
  (forall r data,
      expired (scriptCache s) t ->
      backend w call = Responds r -> ok r = true -> fr_json r = Some data ->
      let c := mkScriptCache (default [] (data_head data))
                             (default [] (data_body data)) t in
      getScripts w env s
      = (Returned (joined c), mkIsolate (Some c) (calls s ++ [call]))) /\
  (forall c,
      expired (scriptCache s) t -> registryFailed (backend w call) = true ->
      scriptCache s = Some c ->
      getScripts w env s = (Returned (joined c), called s call)) /\
  (expired (scriptCache s) t -> registryFailed (backend w call) = true ->
   scriptCache s = None ->
   getScripts w env s = (Returned (mkScripts "" ""), called s call)
   /\ mkScripts "" "" = joined (mkScriptCache [] [] t)).
Proof.
  cbv zeta. split; [|split; [|split]].
  - intros c Hc Hf. now apply getScripts_fresh.
  - intros r data He Hb Hok Hj. rewrite getScripts_expired by exact He.
    now apply (refreshScripts_success w env s (now w) r data).
  - intros c He Hf Hc. rewrite getScripts_expired by exact He.
    rewrite refreshScripts_failure by exact Hf. now rewrite Hc.
  - intros He Hf Hc. split; [|reflexivity].
    rewrite getScripts_expired by exact He.
    rewrite refreshScripts_failure by exact Hf. now rewrite Hc.
Qed.

Lemma getScripts_fresh_refresh_or_stale_witness :
  (* young entry: served from the isolate *)
  getScripts (worldAt 1699999060000 registryDown) (mkEnv "https://project.supabase.co" "anon-key") warmIsolate
  = (Returned (joined storedScripts), warmIsolate) /\
  (* old entry, registry up: replaced *)
  fst (getScripts (worldAt 1700000000000 registryUp) (mkEnv "https://project.supabase.co" "anon-key") warmIsolate)
  = Returned (mkScripts "<script src=/new.js></script>" "") /\
  (* old entry, registry down: the stored pair *)
  fst (getScripts (worldAt 1700000000000 registryDown) (mkEnv "https://project.supabase.co" "anon-key") warmIsolate)
  = Returned (joined storedScripts) /\
  (* nothing stored, registry down: the empty pair *)
  fst (getScripts (worldAt 1700000000000 registryDown) (mkEnv "https://project.supabase.co" "anon-key") (mkIsolate None []))
  = Returned (mkScripts "" "").
Proof.
  set (env := mkEnv "https://project.supabase.co" "anon-key").
  split; [|split; [|split]].
  - apply (proj1 (getScripts_fresh_refresh_or_stale
                    (worldAt 1699999060000 registryDown) env warmIsolate)).
    + reflexivity.
    + unfold CACHE_TTL_MS. simpl. lia.
  - rewrite (proj1 (proj2 (getScripts_fresh_refresh_or_stale
                             (worldAt 1700000000000 registryUp) env warmIsolate))
               (mkFetchResponse 200 ∅ "" (Some registryDocument)) registryDocument).
    + reflexivity.
    + unfold expired, CACHE_TTL_MS. simpl. lia.
    + reflexivity.
    + reflexivity.
    + reflexivity.
  - rewrite (proj1 (proj2 (proj2 (getScripts_fresh_refresh_or_stale
                             (worldAt 1700000000000 registryDown) env warmIsolate)))
               storedScripts).
    + reflexivity.
    + unfold expired, CACHE_TTL_MS. simpl. lia.
    + reflexivity.
    + reflexivity.
  - rewrite (proj1 (proj2 (proj2 (proj2 (getScripts_fresh_refresh_or_stale
                             (worldAt 1700000000000 registryDown) env
                             (mkIsolate None [])))) I eq_refl eq_refl)).
    reflexivity.
Defined.

(** C10. Failed refresh attempts leave the stored pair and [fetchedAt] as they
    were, however many of them follow one another, and each of them calls the
    backend; after them, a [get()] past the TTL calls the backend again. *)
Theorem failed_refresh_keeps_cache env ws s c :
  let call := scriptServiceCall env in
  scriptCache s = Some c ->
  Forall (fun w => CACHE_TTL_MS <= now w - fetchedAt c /\
                   registryFailed (backend w call) = true) ws ->
  scriptCache (getMany env ws s) = Some c /\
  calls (getMany env ws s) = (calls s ++ repeat call (List.length ws))%list /\
  forall w', CACHE_TTL_MS <= now w' - fetchedAt c ->
             calls (snd (getScripts w' env (getMany env ws s)))
             = (calls (getMany env ws s) ++ [call])%list.
Proof.
  cbv zeta. intros Hc Hall. revert s Hc.
  induction Hall as [|w ws [Hexp Hfail] _ IH]; intros s Hc.
  - simpl. rewrite app_nil_r. split; [exact Hc|]. split; [reflexivity|].
    intros w' He. rewrite getScripts_expired by (rewrite Hc; exact He).
    unfold refreshScripts. unfold_monad.
    destruct (backend w' (scriptServiceCall env)) as [r| |]; simpl;
      [destruct (ok r); [destruct (fr_json r)|] | | ]; simpl;
      try reflexivity; now destruct (scriptCache s).
  - simpl getMany.
    assert (Hstep : getScripts w env s
                    = (Returned (joined c), called s (scriptServiceCall env))).
    { rewrite getScripts_expired by (rewrite Hc; exact Hexp).
      rewrite refreshScripts_failure by exact Hfail. now rewrite Hc. }
    rewrite Hstep. simpl snd.
    destruct (IH (called s (scriptServiceCall env)) Hc) as (H1 & H2 & H3).
    split; [exact H1|]. split; [|exact H3].
    rewrite H2. simpl. now rewrite <- app_assoc.
Qed.

Lemma failed_refresh_keeps_cache_witness :
  let ws := [worldAt 1700000000000 registryDown; worldAt 1700000005000 registryDown] in
  let env := mkEnv "https://project.supabase.co" "anon-key" in
  scriptCache (getMany env ws warmIsolate) = Some storedScripts /\
  calls (getMany env ws warmIsolate)
  = [scriptServiceCall env; scriptServiceCall env].
Proof.
  cbv zeta.
  destruct (failed_refresh_keeps_cache
              (mkEnv "https://project.supabase.co" "anon-key")
              [worldAt 1700000000000 registryDown; worldAt 1700000005000 registryDown]
              warmIsolate storedScripts) as (H1 & H2 & _).
  - reflexivity.
  - repeat constructor; unfold CACHE_TTL_MS; simpl; lia.
  - split; [exact H1 | exact H2].
Defined.

(** ** Route facts: sitemap paths are neither assets nor the debug path *)

Section RouteFacts.

Lemma lastChar_app a c r : lastChar (a +:+ String c r) = lastChar (String c r).
Proof.
  induction a as [|x a IH]; [reflexivity|].
  change (String x a +:+ String c r) with (String x (a +:+ String c r)).
  cbn [lastChar]. rewrite IH.
  destruct a; reflexivity.
Qed.

Lemma endsWith_spec s p : endsWith s p = true -> exists a, s = a +:+ p.
Proof.
  induction s as [|c s IH]; cbn [endsWith].
  - destruct (String.eqb_spec "" p) as [<-|]; [|discriminate].
    intros _. now exists "".
  - destruct (String.eqb_spec (String c s) p) as [<-|].
    + intros _. now exists "".
    + intros H. destruct (IH H) as [a ->]. now exists (String c a).
Qed.

Lemma endsWith_lastChar s c r :
  endsWith s (String c r) = true -> lastChar s = lastChar (String c r).
Proof. intros H. apply endsWith_spec in H as [a ->]. apply lastChar_app. Qed.

Lemma digitsThenXml_suffix seen s :
  digitsThenXml seen s = true -> exists ds, s = ds +:+ ".xml".
Proof.
  revert seen; induction s as [|c s IH]; intros seen; cbn [digitsThenXml];
    [discriminate|].
  destruct (isDigit c).
  - intros H. destruct (IH _ H) as [ds ->]. now exists (String c ds).
  - intros H. apply andb_true_iff in H as [_ H].
    apply String.eqb_eq in H. rewrite H. now exists "".
Qed.

Lemma xml_path_not_asset a : isStaticAsset (a +:+ ".xml") = false.
Proof.
  unfold isStaticAsset. rewrite toLowerCase_app.
  change (toLowerCase ".xml") with ".xml".
  apply not_true_is_false. intros H. apply existsb_exists in H as (ext & Hin & He).
  assert (Hl : lastChar ("." +:+ ext) = Some "l"%char).
  { change ("." +:+ ext) with (String "." ext) in *.
    rewrite <- (endsWith_lastChar _ _ _ He). apply lastChar_app. }
  unfold STATIC_EXTENSIONS in Hin. simpl in Hin.
  repeat (destruct Hin as [<-|Hin]; [discriminate Hl|]). exact Hin.
Qed.

Lemma shard_path_shape path :
  isSitemapShard path = true ->
  exists kind ds, (kind = "markets" \/ kind = "pillars") /\
                  path = "/sitemap-" +:+ kind +:+ "-" +:+ ds +:+ ".xml".
Proof.
  unfold isSitemapShard.
  destruct (stripPrefix "/sitemap-markets-" path) as [rest|] eqn:E1.
  - intros H. apply digitsThenXml_suffix in H as [ds ->].
    apply stripPrefix_Some in E1. exists "markets", ds. split; [now left|].
    exact E1.
  - destruct (stripPrefix "/sitemap-pillars-" path) as [rest|] eqn:E2;
      [|discriminate].
    intros H. apply digitsThenXml_suffix in H as [ds ->].
    apply stripPrefix_Some in E2. exists "pillars", ds. split; [now right|].
    exact E2.
Qed.

(** A sitemap path passes the asset and debug checks and belongs to one of
    the two sitemap classes only. *)
Lemma sitemap_path_route path :
  isDynamicSitemap path || isStaticSitemap path = true ->
  isStaticAsset path = false /\ String.eqb path "/__debug" = false /\
  (isDynamicSitemap path = true -> isStaticSitemap path = false).
Proof.
  unfold isDynamicSitemap, isStaticSitemap. intros H.
  destruct (String.eqb path "/sitemap-markets.xml") eqn:E1;
    [apply String.eqb_eq in E1; subst path; repeat split; reflexivity|].
  destruct (String.eqb path "/sitemap-pillars.xml") eqn:E2;
    [apply String.eqb_eq in E2; subst path; repeat split; reflexivity|].
  cbn [orb] in H. split; [|split]; [| |discriminate].
  - apply orb_true_iff in H as [H|H].
    + apply shard_path_shape in H as (kind & ds & _ & ->).
      rewrite <- !string_app_assoc. apply xml_path_not_asset.
    + apply String.eqb_eq in H. subst path. reflexivity.
  - apply orb_true_iff in H as [H|H].
    + apply shard_path_shape in H as (kind & ds & _ & ->). reflexivity.
    + apply String.eqb_eq in H. subst path. reflexivity.
Qed.

End RouteFacts.

(** ** Reading a body as text *)

Lemma utf8_ascii s :
  allChars isAscii s = true -> utf8 "" 0 128 191 s = s.
Proof.
  induction s as [|c s IH]; [reflexivity|]. cbn [allChars utf8]. intros H.
  apply andb_true_iff in H as [Hc Hs]. unfold isAscii in Hc.
  apply N.ltb_lt in Hc.
  assert (Hle : (N_of_ascii c <=? 127)%N = true) by (apply N.leb_le; lia).
  rewrite Hle.
  now rewrite IH.
Qed.

(** A body in ASCII reads as itself. *)
Lemma text_ascii s : allChars isAscii s = true -> text s = s.
Proof.
  intros H. unfold text.
  assert (stripPrefix BOM s = None) as ->; [|now apply utf8_ascii].
  destruct s as [|c s]; [reflexivity|]. cbn [allChars] in H.
  apply andb_true_iff in H as [Hc _]. unfold BOM. cbn [stripPrefix].
  destruct (Ascii.eqb_spec (ascii_of_N 239) c) as [<-|]; [discriminate Hc|].
  reflexivity.
Qed.

(** ** Facts about the dispatcher *)

Section DispatcherFacts.

Variable w : World.
Variable env : Env.

Lemma dynamicSitemap_failed path s :
  isDynamicSitemap path = true ->
  lookupFailed (backend w (sitemapCall env path)) = true ->
  dynamicSitemap w env path s = (Returned None, called s (sitemapCall env path)).
Proof.
  unfold dynamicSitemap, sitemapCall. intros -> Hf. unfold_monad.
  destruct (backend w _) as [r| |]; simpl in Hf; try discriminate;
    [|reflexivity].
  now destruct (ok r).
Qed.

Lemma dynamicSitemap_skipped path s :
  isDynamicSitemap path = false -> dynamicSitemap w env path s = (Returned None, s).
Proof. unfold dynamicSitemap. now intros ->. Qed.

Lemma staticSitemap_failed path s :
  isDynamicSitemap path = false -> isStaticSitemap path = true ->
  lookupFailed (backend w (sitemapCall env path)) = true ->
  staticSitemap w env path s = (Returned None, called s (sitemapCall env path)).
Proof.
  unfold staticSitemap, sitemapCall. intros -> -> Hf. unfold_monad.
  destruct (backend w _) as [r| |]; simpl in Hf; try discriminate;
    [|reflexivity].
  now destruct (ok r).
Qed.

Lemma staticSitemap_skipped path s :
  isStaticSitemap path = false -> staticSitemap w env path s = (Returned None, s).
Proof. unfold staticSitemap. now intros ->. Qed.

Lemma prerenderForBot_failed path ua scripts s :
  isBot ua = true ->
  lookupFailed (backend w (prerenderCall env path ua)) = true ->
  prerenderForBot w env path ua scripts s
  = (Returned None, called s (prerenderCall env path ua)).
Proof.
  unfold prerenderForBot. intros -> Hf. unfold_monad.
  destruct (backend w _) as [r| |]; simpl in Hf; try discriminate;
    [|reflexivity].
  now destruct (ok r).
Qed.

Lemma prerenderForBot_human path ua scripts s :
  isBot ua = false ->
  prerenderForBot w env path ua scripts s = (Returned None, s).
Proof. unfold prerenderForBot. now intros ->. Qed.

(** The response of the page stages does not depend on the isolate. *)
Lemma serveSpa_outcome scripts s1 s2 :
  fst (serveSpa w scripts s1) = fst (serveSpa w scripts s2).
Proof.
  unfold serveSpa, newResponse. unfold_monad.
  destruct (next w) as [r| |]; try reflexivity.
  destruct (negb _); [reflexivity|]. now destruct (acceptsBody _).
Qed.

Lemma servePage_outcome path ua scripts s1 s2 :
  fst (servePage w env path ua scripts s1)
  = fst (servePage w env path ua scripts s2).
Proof.
  unfold servePage, prerenderForBot. unfold bind at 1 3.
  destruct (isBot ua).
  - unfold try_catch, bind, fetch, ret.
    destruct (backend w _) as [r| |]; simpl; try apply serveSpa_outcome.
    + destruct (ok r); simpl; [reflexivity | apply serveSpa_outcome].
    + reflexivity.
  - unfold ret. apply serveSpa_outcome.
Qed.

(** The object built from the entries of a response's headers has every
    name with its value, but [set-cookie], which has the last of the
    [Set-Cookie] lines. *)
Lemma fromEntries_entries (r : Response) :
  fromEntries (entries r)
  = match last (resp_more_cookies r) with
    | Some line => <["set-cookie" := line]> (resp_headers r)
    | None => resp_headers r
    end.
Proof.
  unfold fromEntries, entries.
  assert (G : forall (l : list (string * string)) (m : gmap string string),
             NoDup (l.*1) ->
             fold_left (fun o kv => <[kv.1 := kv.2]> o) l m = list_to_map l ∪ m).
  { induction l as [|[k v] l IH]; intros m Hnd; simpl.
    - now rewrite (left_id_L ∅ (∪)).
    - apply NoDup_cons in Hnd as [Hk Hnd]. rewrite IH by exact Hnd.
      rewrite <- insert_union_l. symmetry. apply insert_union_r.
      now apply not_elem_of_list_to_map_1. }
  rewrite fold_left_app.
  rewrite (G (map_to_list (resp_headers r))) by apply NoDup_fst_map_to_list.
  rewrite list_to_map_to_list, (right_id_L ∅ (∪)).
  generalize (resp_headers r) as m.
  induction (resp_more_cookies r) as [|line lines IH]; intros m; [reflexivity|].
  cbn [map fold_left fst snd]. rewrite IH.
  destruct lines as [|line' lines]; [reflexivity|].
  change (last (line :: line' :: lines)) with (last (line' :: lines)).
  destruct (last (line' :: lines)) eqn:E; [apply insert_insert_eq|].
  now apply last_None in E.
Qed.

Lemma serveSpa_isolate scripts s : snd (serveSpa w scripts s) = s.
Proof.
  unfold serveSpa, newResponse. unfold_monad.
  destruct (next w) as [r| |]; try reflexivity.
  destruct (negb _); [reflexivity|]. now destruct (acceptsBody _).
Qed.

(** The SPA stage on the origin's answer: an answer that is not HTML is
    handed on as it is; an HTML answer is read as text and built anew, which
    the platform refuses for a status that admits no body. *)
Lemma serveSpa_other scripts s origin :
  next w = Returned origin -> isHtml origin = false ->
  serveSpa w scripts s = (Returned origin, s).
Proof.
  intros Hnext Hhtml. unfold serveSpa, isHtml in *. unfold_monad.
  now rewrite Hnext, Hhtml.
Qed.

Lemma serveSpa_html scripts s origin :
  next w = Returned origin -> isHtml origin = true ->
  acceptsBody (resp_status origin) = true ->
  serveSpa w scripts s
  = (Returned (mkResponse (resp_status origin)
                 (<["X-Scripts-Injected" := "true"]>
                    (match last (resp_more_cookies origin) with
                     | Some line => <["set-cookie" := line]> (resp_headers origin)
                     | None => resp_headers origin
                     end))
                 (injectScripts (text (resp_body origin)) scripts)), s).
Proof.
  intros Hnext Hhtml Hstatus. unfold serveSpa, newResponse, isHtml in *.
  unfold_monad. now rewrite Hnext, Hhtml, Hstatus, fromEntries_entries.
Qed.

Lemma serveSpa_refused scripts s origin :
  next w = Returned origin -> isHtml origin = true ->
  acceptsBody (resp_status origin) = false ->
  serveSpa w scripts s = (Thrown, s).
Proof.
  intros Hnext Hhtml Hstatus. unfold serveSpa, newResponse, isHtml in *.
  unfold_monad. now rewrite Hnext, Hhtml, Hstatus.
Qed.

Lemma servePage_failed path ua scripts s :
  isBot ua = true ->
  lookupFailed (backend w (prerenderCall env path ua)) = true ->
  servePage w env path ua scripts s
  = serveSpa w scripts (called s (prerenderCall env path ua)).
Proof.
  intros Hb Hf. unfold servePage, bind.
  now rewrite prerenderForBot_failed by assumption.
Qed.

Lemma servePage_human path ua scripts s :
  isBot ua = false ->
  servePage w env path ua scripts s = serveSpa w scripts s.
Proof.
  intros Hb. unfold servePage, bind.
  now rewrite prerenderForBot_human by assumption.
Qed.

(** On a page path the dispatcher is [getScripts] followed by the page
    stages. *)
Lemma onRequest_page request s :
  isPagePath (url_pathname request) = true ->
  onRequest w env request s
  = (do scripts <- getScripts w env;
     servePage w env (url_pathname request) (userAgentOf request) scripts) s.
Proof.
  unfold isPagePath. intros Hpage.
  apply andb_true_iff in Hpage as [Hpage Hstat].
  apply andb_true_iff in Hpage as [Hpage Hdyn].
  apply andb_true_iff in Hpage as [Hasset Hdebug].
  apply negb_true_iff in Hasset, Hdebug, Hdyn, Hstat.
  unfold onRequest. rewrite Hasset, Hdebug. unfold bind.
  destruct (getScripts w env s) as [[scripts| |] s1]; try reflexivity.
  rewrite dynamicSitemap_skipped by assumption.
  now rewrite staticSitemap_skipped by assumption.
Qed.

End DispatcherFacts.

(** *** Sitemap lookups that fail *)

(** C1 (as the code has it). When the backend lookup of a sitemap request
    fails (the call rejects or the response is not 2xx), the layer builds no
    sitemap document of its own: it falls through, and its response is the
    one that the page stages give for this request after [getScripts]. *)
Theorem sitemap_failure_falls_through w env request s :
  let path := url_pathname request in
  isDynamicSitemap path || isStaticSitemap path = true ->
  lookupFailed (backend w (sitemapCall env path)) = true ->
  fst (onRequest w env request s)
  = fst ((do scripts <- getScripts w env;
          servePage w env path (userAgentOf request) scripts) s).
Proof.
  cbv zeta. intros Hroute Hf.
  destruct (sitemap_path_route _ Hroute) as (Hasset & Hdebug & Hexcl).
  unfold onRequest. rewrite Hasset, Hdebug.
  unfold bind at 1 4.
  destruct (getScripts w env s) as [[scripts| |] s1]; try reflexivity.
  unfold bind at 1.
  destruct (isDynamicSitemap (url_pathname request)) eqn:Hdyn.
  - rewrite dynamicSitemap_failed by assumption.
    unfold bind at 1. rewrite staticSitemap_skipped by auto.
    apply servePage_outcome.
  - rewrite dynamicSitemap_skipped by assumption.
    unfold bind at 1. rewrite staticSitemap_failed by assumption.
    apply servePage_outcome.
Qed.

Lemma sitemap_failure_falls_through_witness :
  fst (onRequest worldWithoutSitemap sampleEnv sitemapIndexRequest coldIsolate)
  = fst ((do scripts <- getScripts worldWithoutSitemap sampleEnv;
          servePage worldWithoutSitemap sampleEnv "/sitemap-index.xml"
                    "Mozilla/5.0 (X11; Linux x86_64)" scripts) coldIsolate).
Proof.
  apply (sitemap_failure_falls_through worldWithoutSitemap sampleEnv
           sitemapIndexRequest coldIsolate); reflexivity.
Defined.

(** C1 as stated does not hold: for [/sitemap-index.xml] with no matching
    file in the backend, the response is the origin's 404, not a 200 with
    the empty urlset document. *)
Lemma sitemap_failure_not_empty_urlset :
  isStaticSitemap (url_pathname sitemapIndexRequest) = true /\
  lookupFailed (backend worldWithoutSitemap
                  (sitemapCall sampleEnv (url_pathname sitemapIndexRequest)))
  = true /\
  fst (onRequest worldWithoutSitemap sampleEnv sitemapIndexRequest coldIsolate)
  = Returned originNotFound /\
  resp_status originNotFound <> 200 /\
  resp_body originNotFound <> EMPTY_URLSET.
Proof.
  split; [reflexivity|]. split; [reflexivity|]. split; [vm_compute; reflexivity|].
  split; [discriminate|]. vm_compute. discriminate.
Qed.

(** *** Bots whose prerender lookup fails *)

(** C3. For a bot on a page path whose prerender lookup fails (the call
    rejects or the response is not 2xx), the response is the origin's, passed
    through the SPA stage, and it is the response that the same request gets
    with a human User-Agent; the stored script cache is the same too. *)
Theorem bot_lookup_failure_serves_spa w env request human s :
  let path := url_pathname request in
  isPagePath path = true ->
  isBot (userAgentOf request) = true ->
  lookupFailed (backend w (prerenderCall env path (userAgentOf request))) = true ->
  url_pathname human = path ->
  isBot (userAgentOf human) = false ->
  fst (onRequest w env request s)
  = fst ((do scripts <- getScripts w env; serveSpa w scripts) s) /\
  fst (onRequest w env request s) = fst (onRequest w env human s) /\
  scriptCache (snd (onRequest w env request s))
  = scriptCache (snd (onRequest w env human s)).
Proof.
  cbv zeta. intros Hpage Hbot Hf Hpath Hhuman.
  rewrite (onRequest_page w env human) by (now rewrite Hpath).
  rewrite (onRequest_page w env request) by exact Hpage.
  rewrite Hpath. unfold bind.
  destruct (getScripts w env s) as [[scripts| |] s1];
    try (repeat split; reflexivity).
  rewrite servePage_failed by assumption.
  rewrite servePage_human by assumption.
  split; [apply serveSpa_outcome|]. split; [apply serveSpa_outcome|].
  now rewrite !serveSpa_isolate.
Qed.

Lemma bot_lookup_failure_serves_spa_witness :
  fst (onRequest worldWithoutPage sampleEnv aboutAsGooglebot coldIsolate)
  = fst (onRequest worldWithoutPage sampleEnv aboutAsBrowser coldIsolate).
Proof.
  apply (bot_lookup_failure_serves_spa worldWithoutPage sampleEnv
           aboutAsGooglebot aboutAsBrowser coldIsolate); reflexivity.
Defined.

(** *** The origin's response *)

(** C8 (where the code departs from it).  An HTML answer of the origin is
    not always handed back with its status and headers.  Asked by a browser
    for a page, the layer rejects when the origin answers 304 with an HTML
    content type, though the origin returned; and of two [Set-Cookie] lines
    of the origin's HTML answer only the last is in the response. *)
Theorem html_origin_response_not_preserved :
  (next worldWithNotModified = Returned originNotModified /\
   isHtml originNotModified = true /\
   fst (onRequest worldWithNotModified sampleEnv aboutAsBrowser coldIsolate)
   = Thrown) /\
  (next worldWithTwoCookies = Returned originWithTwoCookies /\
   isHtml originWithTwoCookies = true /\
   resp_headers originWithTwoCookies !! "set-cookie" = Some "session=1; Path=/" /\
   resp_more_cookies originWithTwoCookies = ["theme=dark; Path=/"] /\
   exists resp,
     fst (onRequest worldWithTwoCookies sampleEnv aboutAsBrowser coldIsolate)
     = Returned resp /\
     resp_status resp = 200 /\
     resp_headers resp !! "set-cookie" = Some "theme=dark; Path=/" /\
     resp_more_cookies resp = []).
Proof.
  split.
  - split; [reflexivity|]. split; [reflexivity|]. vm_compute. reflexivity.
  - split; [reflexivity|]. split; [reflexivity|]. split; [reflexivity|].
    split; [reflexivity|]. eexists. split; [vm_compute; reflexivity|].
    split; [reflexivity|]. split; reflexivity.
Qed.

(** *** Outbound calls carry no time limit *)

Section Traced.

Variable w : World.

Lemma traced_silent {A} (m : M A) :
  (forall s, calls (snd (m s)) = calls s) -> traced w m.
Proof.
  intros H s. exists []. rewrite app_nil_r.
  split; [apply H|]. split; [constructor|]. intros c [].
Qed.

Lemma traced_ret {A} (a : A) : traced w (ret a).
Proof. now apply traced_silent. Qed.

Lemma traced_throw {A} : traced w (@throw A).
Proof. now apply traced_silent. Qed.

Lemma traced_await {A} (o : outcome A) : traced w (await o).
Proof. now apply traced_silent. Qed.

Lemma traced_read : traced w read_scriptCache.
Proof. now apply traced_silent. Qed.

Lemma traced_write c : traced w (write_scriptCache c).
Proof. now apply traced_silent. Qed.

Lemma traced_fetch c : noTimeout c -> traced w (fetch w c).
Proof.
  intros Hc s. exists [c]. unfold fetch. unfold noTimeout in Hc. rewrite Hc.
  split; [now destruct (backend w c)|]. split; [now repeat constructor|].
  intros c' [<-|[]] Hh. now rewrite Hh.
Qed.

Lemma traced_bind {A B} (m : M A) (f : A -> M B) :
  traced w m -> (forall a, traced w (f a)) -> traced w (bind m f).
Proof.
  intros Hm Hf s. destruct (Hm s) as (new1 & Hc1 & Hn1 & Hh1). unfold bind.
  destruct (m s) as [[a| |] s1] eqn:E; simpl in *.
  - destruct (Hf a s1) as (new2 & Hc2 & Hn2 & Hh2).
    exists (new1 ++ new2)%list. rewrite Hc2, Hc1, <- app_assoc.
    split; [reflexivity|]. split; [now apply Forall_app|].
    intros c Hin Hh. apply in_app_or in Hin as [Hin|Hin]; [|now apply (Hh2 c)].
    now specialize (Hh1 c Hin Hh).
  - exists new1. split; [exact Hc1|]. split; [exact Hn1|].
    intros c Hin Hh. now specialize (Hh1 c Hin Hh).
  - exists new1. split; [exact Hc1|]. split; [exact Hn1|]. reflexivity.
Qed.

Lemma traced_try {A} (m h : M A) :
  traced w m -> traced w h -> traced w (try_catch m h).
Proof.
  intros Hm Hh s. destruct (Hm s) as (new1 & Hc1 & Hn1 & Hh1). unfold try_catch.
  destruct (m s) as [[a| |] s1] eqn:E; simpl in *.
  - exists new1. split; [exact Hc1|]. split; [exact Hn1|].
    intros c Hin Hg. now specialize (Hh1 c Hin Hg).
  - destruct (Hh s1) as (new2 & Hc2 & Hn2 & Hh2).
    exists (new1 ++ new2)%list. rewrite Hc2, Hc1, <- app_assoc.
    split; [reflexivity|]. split; [now apply Forall_app|].
    intros c Hin Hg. apply in_app_or in Hin as [Hin|Hin]; [|now apply (Hh2 c)].
    now specialize (Hh1 c Hin Hg).
  - exists new1. split; [exact Hc1|]. split; [exact Hn1|]. reflexivity.
Qed.

End Traced.

Ltac traced_step :=
  first
    [ apply traced_ret | apply traced_throw | apply traced_await
    | apply traced_read | apply traced_write
    | apply traced_fetch; reflexivity
    | apply traced_try
    | apply traced_bind; [|intros ?]
    | match goal with
      | |- traced _ (if ?b then _ else _) => destruct b
      | |- traced _ (match ?x with _ => _ end) => destruct x
      end ].

Lemma getScripts_traced w env : traced w (getScripts w env).
Proof. unfold getScripts, refreshScripts. repeat traced_step. Qed.

Lemma servePage_traced w env path ua scripts :
  traced w (servePage w env path ua scripts).
Proof.
  unfold servePage, prerenderForBot, serveSpa, newResponse.
  repeat traced_step.
Qed.

Lemma onRequest_traced w env request : traced w (onRequest w env request).
Proof.
  unfold onRequest, debugResponse, dynamicSitemap, staticSitemap.
  repeat first [apply getScripts_traced | apply servePage_traced | traced_step].
Qed.

(** C2 (as the code has it). No outbound backend call of the layer carries a
    time limit: every call that a request adds to the log is a [fetch] given
    headers only, and when the backend never answers one of them the edge
    response stays pending. *)
Theorem outbound_calls_have_no_timeout w env request s :
  exists new,
    calls (snd (onRequest w env request s)) = (calls s ++ new)%list /\
    Forall (fun c => init_signal (call_init c) = None) new /\
    forall c, In c new -> backend w c = Hangs ->
              fst (onRequest w env request s) = Pending.
Proof. apply onRequest_traced. Qed.

Lemma outbound_calls_have_no_timeout_witness :
  fst (onRequest worldWithHungBackend sampleEnv aboutAsGooglebot coldIsolate)
  = Pending.
Proof.
  destruct (outbound_calls_have_no_timeout worldWithHungBackend sampleEnv
              aboutAsGooglebot coldIsolate) as (new & Hcalls & _ & Hhang).
  apply (Hhang (scriptServiceCall sampleEnv)); [|reflexivity].
  simpl in Hcalls. rewrite <- Hcalls. left. reflexivity.
Defined.

(** C2 as stated does not hold: with a backend that never answers, the script
    registry call of a page request has no time limit and the response never
    comes. *)
Lemma hung_backend_hangs_response :
  let run := onRequest worldWithHungBackend sampleEnv aboutAsGooglebot coldIsolate in
  calls (snd run) = [scriptServiceCall sampleEnv] /\
  init_signal (call_init (scriptServiceCall sampleEnv)) = None /\
  fst run = Pending.
Proof. cbv zeta. split; [reflexivity|]. split; reflexivity. Qed.

(** ** Facts about the prerender edge function *)

Module PrerenderFacts.

Import Prerender.

(** C5. A lookup of a path with a stored entry whose html is not empty
    answers 200 with the stored html, and [X-Cache] is [hit] when the entry
    has no [expires_at] or one in the future, [stale] when it is in the
    past. *)
Theorem lookup_hit_or_stale p req table row :
  method req <> "OPTIONS" ->
  setupException p = None -> selectError p = false ->
  table !! requestedPath req = Some row -> html row <> "" ->
  let resp := fst (serve p req table) in
  status resp = 200 /\ body resp = Some (html row) /\
  (expires_at row = None -> headers resp !! "X-Cache" = Some "hit") /\
  (forall t, expires_at row = Some t -> clock p < t ->
             headers resp !! "X-Cache" = Some "hit") /\
  (forall t, expires_at row = Some t -> t < clock p ->
             headers resp !! "X-Cache" = Some "stale").
Proof.
  intros Hm Hs Hsel Hrow Hhtml. unfold serve, handle.
  apply String.eqb_neq in Hm. rewrite Hm, Hs, Hsel.
  fold (requestedPath req). rewrite Hrow.
  assert (truthy (html row) = true) as ->
      by (destruct (html row); [congruence | reflexivity]).
  cbn [fst status body headers].
  split; [reflexivity|]. split; [reflexivity|]. split; [|split].
  - intros ->. reflexivity.
  - intros t -> Ht. destruct (Z.ltb_spec t (clock p)); [lia | reflexivity].
  - intros t -> Ht. destruct (Z.ltb_spec t (clock p)); [reflexivity | lia].
Qed.

Lemma lookup_hit_or_stale_witness :
  let resp := fst (serve quietPlatform aboutLookup sampleTable) in
  status resp = 200 /\ body resp = Some (html aboutRow) /\
  headers resp !! "X-Cache" = Some "stale".
Proof.
  destruct (lookup_hit_or_stale quietPlatform aboutLookup sampleTable aboutRow)
    as (H1 & H2 & _ & _ & H5).
  - discriminate.
  - reflexivity.
  - reflexivity.
  - reflexivity.
  - discriminate.
  - cbv zeta. split; [exact H1|]. split; [exact H2|].
    apply (H5 1600000000000); [reflexivity | reflexivity].
Defined.

(** C9. The response does not depend on the fate of the hit-count update:
    it is the same, with the same status, headers and body, whether the
    update succeeds or comes back with an error, and in the second case the
    table is left as it was. *)
Theorem response_independent_of_increment t exc sel req table :
  let succeeds := mkPlatform t exc sel false in
  let fails := mkPlatform t exc sel true in
  fst (serve fails req table) = fst (serve succeeds req table) /\
  fst (serve fails req table) = fst (handle succeeds req table) /\
  snd (serve fails req table) = table.
Proof.
  cbv zeta. unfold serve.
  assert (H : handle (mkPlatform t exc sel true) req table
              = handle (mkPlatform t exc sel false) req table) by reflexivity.
  rewrite H. destruct (handle (mkPlatform t exc sel false) req table)
    as [resp [[path n]|]]; repeat split; reflexivity.
Qed.

End PrerenderFacts.

(** * Further properties of the middleware *)

(** ** Routes *)

Lemma endsWith_app a p : endsWith (a +:+ p) p = true.
Proof.
  induction a as [|c a IH]; cbn [String.append endsWith].
  - destruct p; cbn [endsWith]; now rewrite String.eqb_refl.
  - now destruct (String.eqb (String c (a +:+ p)) p).
Qed.

(** A path that ends in a dot and a listed extension, in any mix of upper
    and lower case, is handed to the origin and nothing else happens: no
    backend call, no change of the isolate, whoever asks. *)
Theorem static_asset_passes_through w env request s stem ext :
  In (toLowerCase ext) STATIC_EXTENSIONS ->
  url_pathname request = stem +:+ "." +:+ ext ->
  isStaticAsset (url_pathname request) = true /\
  onRequest w env request s = (next w, s).
Proof.
  intros Hin Hpath.
  assert (Ha : isStaticAsset (url_pathname request) = true).
  { unfold isStaticAsset. apply existsb_exists. exists (toLowerCase ext).
    split; [exact Hin|]. rewrite Hpath, !toLowerCase_app.
    change (toLowerCase ".") with ".". apply endsWith_app. }
  split; [exact Ha|]. unfold onRequest. now rewrite Ha.
Qed.

Lemma static_asset_passes_through_witness :
  onRequest worldWithoutPage sampleEnv
            (mkRequest "example.com" "/assets/Logo.PNG" (Some "Googlebot/2.1"))
            coldIsolate
  = (Returned originIndexHtml, coldIsolate).
Proof.
  apply (static_asset_passes_through worldWithoutPage sampleEnv
           (mkRequest "example.com" "/assets/Logo.PNG" (Some "Googlebot/2.1"))
           coldIsolate "/assets/Logo" "PNG").
  - simpl. tauto.
  - reflexivity.
Defined.

Lemma digitsThenXml_shape seen s :
  digitsThenXml seen s = true ->
  exists ds, s = ds +:+ ".xml" /\ allDigits ds = true /\ (seen = true \/ ds <> "").
Proof.
  revert seen; induction s as [|c s IH]; intros seen; cbn [digitsThenXml];
    [discriminate|].
  destruct (isDigit c) eqn:Hd.
  - intros H. destruct (IH _ H) as (ds & -> & Hall & _).
    exists (String c ds). cbn [allDigits]. rewrite Hd, Hall.
    split; [reflexivity|]. split; [reflexivity|]. now right.
  - intros H. apply andb_true_iff in H as [Hseen H].
    apply String.eqb_eq in H. rewrite H. exists "".
    split; [reflexivity|]. split; [reflexivity|]. now left.
Qed.

Lemma digitsThenXml_digits seen ds :
  allDigits ds = true -> seen = true \/ ds <> "" ->
  digitsThenXml seen (ds +:+ ".xml") = true.
Proof.
  revert seen; induction ds as [|c ds IH]; intros seen Hall Hne.
  - destruct Hne as [->|Hne]; [reflexivity | congruence].
  - cbn [allDigits] in Hall. apply andb_true_iff in Hall as [Hc Hall].
    cbn [String.append digitsThenXml]. rewrite Hc. apply IH; [exact Hall | now left].
Qed.

(** The shard test accepts exactly the paths [/sitemap-markets-N.xml] and
    [/sitemap-pillars-N.xml] with [N] one or more decimal digits. *)
Theorem isSitemapShard_iff path :
  isSitemapShard path = true <->
  exists kind ds,
    (kind = "markets" \/ kind = "pillars") /\ ds <> "" /\ allDigits ds = true /\
    path = "/sitemap-" +:+ kind +:+ "-" +:+ ds +:+ ".xml".
Proof.
  split.
  - unfold isSitemapShard.
    destruct (stripPrefix "/sitemap-markets-" path) as [rest|] eqn:E1.
    + intros H. apply digitsThenXml_shape in H as (ds & -> & Hall & [?|Hne]);
        [discriminate|].
      apply stripPrefix_Some in E1. exists "markets", ds. auto.
    + destruct (stripPrefix "/sitemap-pillars-" path) as [rest|] eqn:E2;
        [|discriminate].
      intros H. apply digitsThenXml_shape in H as (ds & -> & Hall & [?|Hne]);
        [discriminate|].
      apply stripPrefix_Some in E2. exists "pillars", ds. auto.
  - intros (kind & ds & [->| ->] & Hne & Hall & ->); unfold isSitemapShard.
    + cbn [String.append stripPrefix Ascii.eqb Bool.eqb].
      apply digitsThenXml_digits; auto.
    + cbn [String.append stripPrefix Ascii.eqb Bool.eqb].
      apply digitsThenXml_digits; auto.
Qed.

Lemma isSitemapShard_iff_witness : isSitemapShard "/sitemap-pillars-204.xml" = true.
Proof.
  apply (proj2 (isSitemapShard_iff "/sitemap-pillars-204.xml")).
  exists "pillars", "204". split; [now right|]. split; [discriminate|].
  split; reflexivity.
Defined.

(** ** The path handed to the backend *)

Section EncodingFacts.

Import UrlQuery.

Lemma encodeURIComponent_cons c r :
  encodeURIComponent (String c r)
  = encodeURIComponent (String c "") +:+ encodeURIComponent r.
Proof.
  cbn [encodeURIComponent]. now rewrite string_app_nil_r.
Qed.

Lemma allChars_app P a b :
  allChars P (a +:+ b) = allChars P a && allChars P b.
Proof.
  induction a as [|c a IH]; cbn [String.append allChars]; [reflexivity|].
  now rewrite IH, andb_assoc.
Qed.

Lemma allChars_occurrence P s a c b :
  allChars P s = true -> s = a +:+ String c b -> P c = true.
Proof.
  intros H ->. rewrite allChars_app in H. apply andb_true_iff in H as [_ H].
  cbn [allChars] in H. now apply andb_true_iff in H as [H _].
Qed.

Lemma encode_one_safe c : allChars urlSafe (encodeURIComponent (String c "")) = true.
Proof. destruct c as [[] [] [] [] [] [] [] []]; reflexivity. Qed.

Lemma encodeURIComponent_safe s : allChars urlSafe (encodeURIComponent s) = true.
Proof.
  induction s as [|c s IH]; [reflexivity|].
  rewrite encodeURIComponent_cons, allChars_app, encode_one_safe, IH. reflexivity.
Qed.

Lemma urlSafe_not_separator c :
  urlSafe c = true ->
  ~ In c ["&"; "="; "?"; "#"; "/"; "+"; " "]%char.
Proof.
  intros H Hin. simpl in Hin.
  repeat (destruct Hin as [<-|Hin]; [discriminate H|]). exact Hin.
Qed.

Lemma decode_one_ascii c r :
  (N_of_ascii c < 128)%N ->
  formDecode (encodeURIComponent (String c "") +:+ r) = String c (formDecode r).
Proof.
  destruct c as [[] [] [] [] [] [] [] []]; intros H;
    first [ exfalso; vm_compute in H; discriminate H | reflexivity ].
Qed.

Lemma formDecode_encode s :
  allChars (fun c => (N_of_ascii c <? 128)%N) s = true ->
  formDecode (encodeURIComponent s) = s.
Proof.
  induction s as [|c s IH]; [reflexivity|]. cbn [allChars].
  intros H. apply andb_true_iff in H as [Hc Hs]. apply N.ltb_lt in Hc.
  rewrite encodeURIComponent_cons, decode_one_ascii by exact Hc.
  now rewrite IH.
Qed.

Lemma splitOn_none sep s :
  allChars (fun c => negb (Ascii.eqb c sep)) s = true -> splitOn sep s = [s].
Proof.
  induction s as [|c s IH]; [reflexivity|]. cbn [allChars splitOn].
  intros H. apply andb_true_iff in H as [Hc Hs].
  apply negb_true_iff in Hc. rewrite Hc, IH by exact Hs. reflexivity.
Qed.

Lemma allChars_impl (P Q : ascii -> bool) s :
  (forall c, P c = true -> Q c = true) ->
  allChars P s = true -> allChars Q s = true.
Proof.
  intros HPQ. induction s as [|c s IH]; [reflexivity|]. cbn [allChars].
  intros H. apply andb_true_iff in H as [Hc Hs].
  now rewrite (HPQ _ Hc), IH.
Qed.

End EncodingFacts.

(** Every code unit that [encodeURIComponent] writes is an unreserved
    character or a percent sign; the encoded path therefore holds none of
    the separators of a URL, and cannot add a parameter to the query. *)
Theorem encodeURIComponent_alphabet s a c b :
  encodeURIComponent s = a +:+ String c b ->
  (unreserved c = true \/ c = "%"%char) /\
  ~ In c ["&"; "="; "?"; "#"; "/"; "+"; " "]%char.
Proof.
  intros H.
  assert (Hs : urlSafe c = true)
    by (eapply allChars_occurrence; [apply encodeURIComponent_safe | exact H]).
  split; [|now apply urlSafe_not_separator].
  unfold urlSafe in Hs. apply orb_true_iff in Hs as [Hs|Hs]; [now left|].
  right. now apply Ascii.eqb_eq in Hs.
Qed.

Lemma encodeURIComponent_alphabet_witness :
  ~ In "F"%char ["&"; "="; "?"; "#"; "/"; "+"; " "]%char.
Proof.
  apply (encodeURIComponent_alphabet "/a&b" "%2" "F" "a%26b"). reflexivity.
Defined.

(** The query that the middleware builds for a page lookup is read back by
    the backend as the path itself: for a path in ASCII,
    [searchParams.get('path')] on [path=] followed by the encoded path is
    the path. *)
Theorem searchParams_reads_encoded_path path :
  allChars (fun c => (N_of_ascii c <? 128)%N) path = true ->
  UrlQuery.searchParamsGet "path" ("path=" +:+ encodeURIComponent path)
  = Some path.
Proof.
  intros Hascii. unfold UrlQuery.searchParamsGet, UrlQuery.parseQuery.
  rewrite splitOn_none.
  - cbn [List.filter truthy String.append].
    cbn [map UrlQuery.cutAtEquals Ascii.eqb Bool.eqb].
    change (UrlQuery.formDecode "path") with "path". cbn [List.find fst snd].
    rewrite String.eqb_refl. now rewrite formDecode_encode.
  - change ("path=" +:+ encodeURIComponent path)
      with (String "p" (String "a" (String "t" (String "h"
              (String "=" (encodeURIComponent path)))))).
    cbn [allChars]. cbn [Ascii.eqb Bool.eqb negb andb].
    eapply allChars_impl; [|apply encodeURIComponent_safe].
    intros c Hc. apply negb_true_iff. apply Ascii.eqb_neq. intros ->.
    discriminate Hc.
Qed.

Lemma searchParams_reads_encoded_path_witness :
  UrlQuery.searchParamsGet "path" "path=%2Fmarket%2Fa%20b%3Fc%3D1%26d"
  = Some "/market/a b?c=1&d".
Proof.
  apply (searchParams_reads_encoded_path "/market/a b?c=1&d"). reflexivity.
Defined.

(** ** What a request may call, and when it rejects or stays pending *)

Section Emits.

Variable w : World.

Lemma emits_weaken {A} (m : M A) l l' :
  sublist l l' -> emits w l m -> emits w l' m.
Proof.
  intros Hl Hm s. destruct (Hm s) as (new & Hc & Hs & Hp).
  exists new. split; [exact Hc|]. split; [|exact Hp]. now transitivity l.
Qed.

Lemma emits_silent {A} (m : M A) :
  (forall s, calls (snd (m s)) = calls s) ->
  (forall s, fst (m s) = Pending -> next w = Pending) ->
  emits w [] m.
Proof.
  intros Hc Hp s. exists []. rewrite app_nil_r.
  split; [apply Hc|]. split; [constructor|]. intros H. left. now apply (Hp s).
Qed.

Lemma emits_ret {A} (a : A) : emits w [] (ret a).
Proof. apply emits_silent; [reflexivity | discriminate]. Qed.

Lemma emits_throw {A} : emits w [] (@throw A).
Proof. apply emits_silent; [reflexivity | discriminate]. Qed.

Lemma emits_next : emits w [] (await (next w)).
Proof. apply emits_silent; [reflexivity | now intros s H]. Qed.

Lemma emits_read : emits w [] read_scriptCache.
Proof. apply emits_silent; [reflexivity | discriminate]. Qed.

Lemma emits_write c : emits w [] (write_scriptCache c).
Proof. apply emits_silent; [reflexivity | discriminate]. Qed.

Lemma emits_fetch c : emits w [c] (fetch w c).
Proof.
  intros s. exists [c]. unfold fetch.
  split; [destruct (backend w c) as [r| |]; [reflexivity..|];
          now destruct (init_signal (call_init c))|].
  split; [reflexivity|]. intros Hp. right. exists c. split; [now left|].
  destruct (backend w c) as [r| |]; [discriminate..|reflexivity].
Qed.

Lemma emits_bind {A B} (m : M A) (f : A -> M B) la lb :
  emits w la m -> (forall a, emits w lb (f a)) -> emits w (la ++ lb) (bind m f).
Proof.
  intros Hm Hf s. destruct (Hm s) as (new1 & Hc1 & Hs1 & Hp1). unfold bind.
  destruct (m s) as [[a| |] s1] eqn:E; simpl in *.
  - destruct (Hf a s1) as (new2 & Hc2 & Hs2 & Hp2).
    exists (new1 ++ new2)%list. rewrite Hc2, Hc1, <- app_assoc.
    split; [reflexivity|]. split; [now apply sublist_app|].
    intros Hp. destruct (Hp2 Hp) as [?|(c & Hin & Hh)]; [now left|].
    right. exists c. split; [apply in_or_app; now right | exact Hh].
  - exists new1. split; [exact Hc1|]. split; [now apply sublist_inserts_r|].
    discriminate.
  - exists new1. split; [exact Hc1|]. split; [now apply sublist_inserts_r|].
    intros _. destruct (Hp1 eq_refl) as [?|(c & Hin & Hh)]; [now left|].
    right. now exists c.
Qed.

Lemma emits_try {A} (m h : M A) la lb :
  emits w la m -> emits w lb h -> emits w (la ++ lb) (try_catch m h).
Proof.
  intros Hm Hh s. destruct (Hm s) as (new1 & Hc1 & Hs1 & Hp1). unfold try_catch.
  destruct (m s) as [[a| |] s1] eqn:E; simpl in *.
  - exists new1. split; [exact Hc1|]. split; [now apply sublist_inserts_r|].
    discriminate.
  - destruct (Hh s1) as (new2 & Hc2 & Hs2 & Hp2).
    exists (new1 ++ new2)%list. rewrite Hc2, Hc1, <- app_assoc.
    split; [reflexivity|]. split; [now apply sublist_app|].
    intros Hp. destruct (Hp2 Hp) as [?|(c & Hin & Hg)]; [now left|].
    right. exists c. split; [apply in_or_app; now right | exact Hg].
  - exists new1. split; [exact Hc1|]. split; [now apply sublist_inserts_r|].
    intros _. destruct (Hp1 eq_refl) as [?|(c & Hin & Hg)]; [now left|].
    right. now exists c.
Qed.

(** [try { fetch ...; ... } catch { }] around one call, the shape of all four
    backend accesses. *)
Lemma emits_guarded_fetch {A B} c (k : FetchResponse -> M A) (h : M A)
      (f : A -> M B) :
  (forall r, emits w [] (k r)) -> emits w [] h -> (forall a, emits w [] (f a)) ->
  emits w [c] (bind (try_catch (bind (fetch w c) k) h) f).
Proof.
  intros Hk Hh Hf.
  apply (emits_weaken _ ((([c] ++ []) ++ []) ++ [])%list); [reflexivity|].
  apply emits_bind; [|exact Hf].
  apply emits_try; [|exact Hh].
  apply emits_bind; [apply emits_fetch | exact Hk].
Qed.

End Emits.

Ltac emits_nil :=
  repeat first
    [ apply emits_ret | apply emits_throw | apply emits_next
    | apply emits_read | apply emits_write
    | match goal with
      | |- emits _ [] (bind _ _) =>
          apply (emits_bind _ _ _ [] []); [|intros ?]
      | |- emits _ _ (if ?b then _ else _) => destruct b
      | |- emits _ _ (match ?x with _ => _ end) => destruct x
      end ].

Section EmitsStages.

Variable w : World.
Variable env : Env.

Lemma getScripts_emits : emits w [scriptServiceCall env] (getScripts w env).
Proof.
  assert (Hr : forall t, emits w [scriptServiceCall env] (refreshScripts w env t)).
  { intros t. unfold refreshScripts. apply emits_guarded_fetch.
    - intros r. emits_nil.
    - emits_nil.
    - intros a. emits_nil. }
  unfold getScripts.
  apply (emits_bind _ _ _ [] [scriptServiceCall env]); [apply emits_read|].
  intros [c|]; [|apply Hr].
  destruct (now w - fetchedAt c <? CACHE_TTL_MS); [|apply Hr].
  apply (emits_weaken _ _ []); [apply sublist_nil_l | apply emits_ret].
Qed.

Lemma guarded_lookup_emits {A} c (k : FetchResponse -> M A) (h : M A) :
  (forall r, emits w [] (k r)) -> emits w [] h ->
  emits w [c] (try_catch (bind (fetch w c) k) h).
Proof.
  intros Hk Hh. apply (emits_weaken w _ (([c] ++ []) ++ [])%list); [reflexivity|].
  apply emits_try; [|exact Hh].
  apply emits_bind; [apply emits_fetch | exact Hk].
Qed.

Lemma dynamicSitemap_emits path :
  emits w (if isDynamicSitemap path then [sitemapCall env path] else [])
        (dynamicSitemap w env path).
Proof.
  unfold dynamicSitemap, sitemapCall.
  destruct (isDynamicSitemap path); [|apply emits_ret].
  apply guarded_lookup_emits; [intros r; emits_nil | emits_nil].
Qed.

Lemma staticSitemap_emits path :
  emits w (if isStaticSitemap path then [serveSitemapCall env (dropLeadingSlash path)]
           else [])
        (staticSitemap w env path).
Proof.
  unfold staticSitemap.
  destruct (isStaticSitemap path); [|apply emits_ret].
  apply guarded_lookup_emits; [intros r; emits_nil | emits_nil].
Qed.

Lemma servePage_emits path ua scripts :
  emits w (if isBot ua then [prerenderCall env path ua] else [])
        (servePage w env path ua scripts).
Proof.
  unfold servePage, prerenderForBot, serveSpa, newResponse.
  destruct (isBot ua).
  - apply (emits_weaken w _ ([prerenderCall env path ua] ++ [])%list); [reflexivity|].
    apply emits_bind.
    + apply guarded_lookup_emits; [intros r; emits_nil | emits_nil].
    + intros a. emits_nil.
  - emits_nil.
Qed.

Lemma sitemap_calls_merge path :
  ((if isDynamicSitemap path then [sitemapCall env path] else [])
   ++ (if isStaticSitemap path then [serveSitemapCall env (dropLeadingSlash path)]
       else []))%list
  = if isDynamicSitemap path || isStaticSitemap path
    then [sitemapCall env path] else [].
Proof.
  destruct (isDynamicSitemap path) eqn:Hd.
  - assert (Hs : isStaticSitemap path = false).
    { apply (sitemap_path_route path); [now rewrite Hd | exact Hd]. }
    now rewrite Hs.
  - unfold sitemapCall. rewrite Hd. now destruct (isStaticSitemap path).
Qed.

Lemma onRequest_emits request :
  emits w (callsOf env request) (onRequest w env request).
Proof.
  unfold onRequest, callsOf.
  set (path := url_pathname request). set (ua := userAgentOf request).
  destruct (isStaticAsset path).
  { apply (emits_weaken _ _ []); [apply sublist_nil_l | apply emits_next]. }
  destruct (String.eqb path "/__debug").
  { apply (emits_weaken _ _ []); [apply sublist_nil_l|].
    unfold debugResponse. emits_nil. }
  rewrite <- sitemap_calls_merge.
  apply emits_bind; [apply getScripts_emits | intros scripts].
  rewrite <- app_assoc.
  apply emits_bind; [apply dynamicSitemap_emits | intros [resp|]].
  { apply (emits_weaken _ _ []); [apply sublist_nil_l | apply emits_ret]. }
  apply emits_bind; [apply staticSitemap_emits | intros [resp|]].
  { apply (emits_weaken _ _ []); [apply sublist_nil_l | apply emits_ret]. }
  apply servePage_emits.
Qed.

End EmitsStages.

(** One request makes no backend call besides the script registry fetch, the
    sitemap lookup of a sitemap path and the page lookup for a bot; it makes
    them in this order and each at most once (nothing is retried); and its
    response stays pending only when the origin does or one of these calls is
    left unanswered. *)
Theorem onRequest_calls_in_order_once w env request s :
  exists new,
    calls (snd (onRequest w env request s)) = (calls s ++ new)%list /\
    sublist new (callsOf env request) /\
    (List.length new <= 3)%nat /\
    (fst (onRequest w env request s) = Pending ->
     next w = Pending \/ exists c, In c new /\ backend w c = Hangs).
Proof.
  destruct (onRequest_emits w env request s) as (new & Hc & Hs & Hp).
  exists new. split; [exact Hc|]. split; [exact Hs|]. split; [|exact Hp].
  apply sublist_length in Hs. etransitivity; [exact Hs|].
  unfold callsOf. rewrite !length_app. cbn [List.length].
  destruct (_ || _), (isBot _); cbn [List.length]; lia.
Qed.

Lemma onRequest_calls_in_order_once_witness :
  exists c, backend worldWithHungBackend c = Hangs.
Proof.
  destruct (onRequest_calls_in_order_once worldWithHungBackend sampleEnv
              aboutAsGooglebot coldIsolate) as (new & _ & _ & _ & H).
  destruct (H eq_refl) as [Habs|(c & _ & Hc)]; [discriminate Habs | now exists c].
Defined.

Section Throws.

Variable P : Prop.

Lemma throws_ret {A} (a : A) : throwsOnlyIf P (ret a).
Proof. intros s H. discriminate H. Qed.

Lemma throws_read : throwsOnlyIf P read_scriptCache.
Proof. intros s H. discriminate H. Qed.

Lemma throws_write c : throwsOnlyIf P (write_scriptCache c).
Proof. intros s H. discriminate H. Qed.

Lemma throws_bind {A B} (m : M A) (f : A -> M B) :
  throwsOnlyIf P m -> (forall a, throwsOnlyIf P (f a)) -> throwsOnlyIf P (bind m f).
Proof.
  intros Hm Hf s. specialize (Hm s). unfold bind.
  destruct (m s) as [[a| |] s1]; simpl in *; [apply Hf | auto | discriminate].
Qed.

(** Whatever the guarded block does, only the handler can reject. *)
Lemma throws_try {A} (m h : M A) : throwsOnlyIf P h -> throwsOnlyIf P (try_catch m h).
Proof.
  intros Hh s. unfold try_catch.
  destruct (m s) as [[a| |] s1]; simpl; [discriminate | apply Hh | discriminate].
Qed.

End Throws.

Lemma throws_next w : throwsOnlyIf (next w = Thrown) (await (next w)).
Proof. intros s H. exact H. Qed.

Ltac throws_step :=
  first
    [ apply throws_ret | apply throws_read | apply throws_write
    | apply throws_next
    | apply throws_try
    | apply throws_bind; [|intros ?]
    | match goal with
      | |- throwsOnlyIf _ (if ?b then _ else _) => destruct b
      | |- throwsOnlyIf _ (match ?x with _ => _ end) => destruct x
      end ].

Lemma throwsOnlyIf_weaken (P Q : Prop) {A} (m : M A) :
  (P -> Q) -> throwsOnlyIf P m -> throwsOnlyIf Q m.
Proof. intros HPQ Hm s H. apply HPQ, (Hm s H). Qed.

(** The SPA stage rejects when the origin does, or when it cannot build the
    HTML answer anew. *)
Lemma serveSpa_throws w scripts :
  throwsOnlyIf
    (next w = Thrown \/
     exists origin, next w = Returned origin /\ isHtml origin = true /\
                    acceptsBody (resp_status origin) = false)
    (serveSpa w scripts).
Proof.
  intros s H. destruct (next w) as [origin| |] eqn:Hnext.
  - right. exists origin. split; [reflexivity|].
    destruct (isHtml origin) eqn:Hhtml.
    + split; [reflexivity|].
      destruct (acceptsBody (resp_status origin)) eqn:Hstatus; [|reflexivity].
      now rewrite (serveSpa_html w scripts s origin) in H.
    + now rewrite (serveSpa_other w scripts s origin) in H.
  - now left.
  - unfold serveSpa in H. unfold_monad. now rewrite Hnext in H.
Qed.

(** No failure of the backend lookups surfaces as an exception.  Once the
    script registry step has not rejected, the dispatcher rejects only at
    the origin: when [next()] rejects, or when the origin's HTML answer has a
    status with which no response with a body can be built (outside 200..599,
    or 204, 205, 304). *)
Theorem onRequest_rejects_only_at_origin w env request s :
  fst (getScripts w env s) <> Thrown ->
  fst (onRequest w env request s) = Thrown ->
  next w = Thrown \/
  exists origin, next w = Returned origin /\ isHtml origin = true /\
                 acceptsBody (resp_status origin) = false.
Proof.
  intros Hscripts. unfold onRequest.
  destruct (isStaticAsset (url_pathname request)); [intros H; left; exact H|].
  destruct (String.eqb (url_pathname request) "/__debug"); [discriminate|].
  unfold bind at 1.
  destruct (getScripts w env s) as [[scripts| |] s1];
    [|now contradiction Hscripts|discriminate].
  clear Hscripts. revert s1.
  match goal with
  | |- forall s1, fst (?m s1) = Thrown -> ?P => change (throwsOnlyIf P m)
  end.
  unfold dynamicSitemap, staticSitemap, servePage, prerenderForBot.
  repeat first [ apply serveSpa_throws | throws_step ].
Qed.

Lemma onRequest_rejects_only_at_origin_witness :
  next worldWithNotModified = Thrown \/
  exists origin, next worldWithNotModified = Returned origin /\
                 isHtml origin = true /\ acceptsBody (resp_status origin) = false.
Proof.
  apply (onRequest_rejects_only_at_origin worldWithNotModified sampleEnv
           aboutAsBrowser coldIsolate).
  - discriminate.
  - vm_compute. reflexivity.
Defined.

(** ** Sitemaps that the backend has *)

(** A sitemap request whose lookup succeeds is answered with the backend's
    text as it is, as XML and without the injection header, once the script
    registry has been read; neither the User-Agent nor the origin has a
    part in it, and the lookup is the only call after the registry's. *)
Theorem sitemap_success_served_verbatim w env request s scripts s1 r :
  let path := url_pathname request in
  isDynamicSitemap path || isStaticSitemap path = true ->
  getScripts w env s = (Returned scripts, s1) ->
  backend w (sitemapCall env path) = Responds r -> ok r = true ->
  exists resp,
    onRequest w env request s = (Returned resp, called s1 (sitemapCall env path)) /\
    resp_status resp = 200 /\ resp_body resp = fr_text r /\
    resp_headers resp !! "Content-Type" = Some "application/xml; charset=utf-8" /\
    resp_headers resp !! "X-Sitemap-Source"
    = Some (if isDynamicSitemap path then "supabase" else "supabase-static") /\
    resp_headers resp !! "X-Scripts-Injected" = None.
Proof.
  cbv zeta. intros Hroute Hscripts Hb Hok.
  destruct (sitemap_path_route _ Hroute) as (Hasset & Hdebug & Hexcl).
  unfold onRequest. rewrite Hasset, Hdebug. unfold bind at 1. rewrite Hscripts.
  unfold sitemapCall in *.
  destruct (isDynamicSitemap (url_pathname request)) eqn:Hdyn.
  - unfold bind at 1. unfold dynamicSitemap. rewrite Hdyn. unfold_monad.
    rewrite Hb, Hok. eexists. split; [reflexivity|]. repeat split.
  - cbn [orb] in Hroute. unfold bind at 1.
    rewrite dynamicSitemap_skipped by exact Hdyn.
    unfold bind at 1. unfold staticSitemap. rewrite Hroute. unfold_monad.
    rewrite Hb, Hok. eexists. split; [reflexivity|]. repeat split.
Qed.

Lemma sitemap_success_served_verbatim_witness :
  exists resp,
    fst (onRequest (worldAt 1699999060000
                      (fun _ => Responds (mkFetchResponse 200 ∅ "<urlset/>" None)))
                   sampleEnv
                   (mkRequest "example.com" "/sitemap-markets-3.xml" None)
                   warmIsolate)
    = Returned resp /\ resp_body resp = "<urlset/>".
Proof.
  destruct (sitemap_success_served_verbatim
              (worldAt 1699999060000
                 (fun _ => Responds (mkFetchResponse 200 ∅ "<urlset/>" None)))
              sampleEnv (mkRequest "example.com" "/sitemap-markets-3.xml" None)
              warmIsolate (joined storedScripts) warmIsolate
              (mkFetchResponse 200 ∅ "<urlset/>" None))
    as (resp & Hrun & _ & Hbody & _); try reflexivity.
  exists resp. rewrite Hrun. split; [reflexivity | exact Hbody].
Defined.

(** ** The debug endpoint *)

Lemma substring_prefix n s :
  exists rest, s = String.substring 0 n s +:+ rest /\
               (String.length (String.substring 0 n s) <= n)%nat.
Proof.
  revert s; induction n as [|n IH]; intros s.
  - exists s. destruct s; simpl; split; (reflexivity || lia).
  - destruct s as [|c s]; [exists ""; simpl; split; [reflexivity | lia]|].
    destruct (IH s) as (rest & Hs & Hl). exists rest. cbn [String.substring].
    cbn [String.append String.length]. split; [now rewrite <- Hs | lia].
Qed.

(** The debug path is answered from the isolate alone: no backend call, no
    change of the isolate, no use of the origin.  The object that is
    serialised holds the two constants, the hostname of the request, the
    first 80 code units at most of its User-Agent, the classifier's verdict
    on the whole User-Agent, the age of the script cache and the time; of the
    environment it holds the two flags telling whether the URL and the key
    are set, and nothing else: two environments with the same flags give the
    same response. *)
Theorem debug_endpoint_is_local w env request s :
  url_pathname request = "/__debug" ->
  (exists shown rest,
     userAgentOf request = shown +:+ rest /\
     (String.length shown <= 80)%nat /\
     onRequest w env request s
     = (Returned
          (mkResponse 200 (object [("Content-Type", "application/json")])
             (stringify w
                (mkDebugInfo "pages-middleware" "2.0.0"
                   (truthy (SUPABASE_URL env)) (truthy (SUPABASE_ANON_KEY env))
                   (url_hostname request) shown (isBot (userAgentOf request))
                   (match scriptCache s with
                    | Some c => Some ((now w - fetchedAt c + 500) / 1000)
                    | None => None
                    end)
                   (now w)))), s)) /\
  (forall env',
     truthy (SUPABASE_URL env') = truthy (SUPABASE_URL env) ->
     truthy (SUPABASE_ANON_KEY env') = truthy (SUPABASE_ANON_KEY env) ->
     onRequest w env' request s = onRequest w env request s).
Proof.
  intros Hpath. unfold onRequest. rewrite Hpath.
  change (isStaticAsset "/__debug") with false.
  change (String.eqb "/__debug" "/__debug") with true. cbv iota.
  unfold debugResponse. unfold_monad. split.
  - destruct (substring_prefix 80 (userAgentOf request)) as (rest & Hs & Hl).
    exists (String.substring 0 80 (userAgentOf request)), rest.
    split; [exact Hs|]. split; [exact Hl | reflexivity].
  - intros env' Hurl Hkey. now rewrite Hurl, Hkey.
Qed.

Lemma debug_endpoint_is_local_witness :
  snd (onRequest worldWithHungBackend sampleEnv
         (mkRequest "example.com" "/__debug" (Some "curl/8.0")) coldIsolate)
  = coldIsolate.
Proof.
  destruct (debug_endpoint_is_local worldWithHungBackend sampleEnv
              (mkRequest "example.com" "/__debug" (Some "curl/8.0")) coldIsolate)
    as [(shown & rest & _ & _ & Hrun) _]; [reflexivity|].
  now rewrite Hrun.
Defined.

(** ** The injector on documents and fragments it handles as meant *)

(** A document that holds neither closing tag comes back as it is, whatever
    the fragments are. *)
Theorem injectScripts_without_closing_tags html scripts :
  includes html "</head>" = false -> includes html "</body>" = false ->
  injectScripts html scripts = html.
Proof.
  intros Hh Hb. unfold injectScripts.
  assert (H1 : (if truthy (head scripts)
                then replace html "</head>" (head scripts +:+ LF +:+ "</head>")
                else html) = html)
    by (destruct (truthy (head scripts)); [now apply replace_absent | reflexivity]).
  rewrite H1. destruct (truthy (body scripts)); [now apply replace_absent | reflexivity].
Qed.

Lemma injectScripts_without_closing_tags_witness :
  injectScripts "<div id=root></div>" (mkScripts "<script>a='$';</script>" "<b>$&</b>")
  = "<div id=root></div>".
Proof.
  apply (injectScripts_without_closing_tags "<div id=root></div>"
           (mkScripts "<script>a='$';</script>" "<b>$&</b>")); reflexivity.
Defined.

(** Fragments without a dollar sign are inserted as they are, each followed
    by a line feed: the head fragment before the first [</head>] of the
    document, then the body fragment before the first [</body>] of the
    document that already holds the head fragment; the rest of the text is
    untouched. *)
Theorem injectScripts_plain_fragments html h b a1 r1 a2 r2 :
  h <> "" -> b <> "" ->
  includes h "$" = false -> includes b "$" = false ->
  findFirst "</head>" html = Some (a1, r1) ->
  findFirst "</body>" (a1 +:+ h +:+ LF +:+ "</head>" +:+ r1) = Some (a2, r2) ->
  injectScripts html (mkScripts h b) = a2 +:+ b +:+ LF +:+ "</body>" +:+ r2 /\
  a1 +:+ h +:+ LF +:+ "</head>" +:+ r1 = a2 +:+ "</body>" +:+ r2 /\
  html = a1 +:+ "</head>" +:+ r1.
Proof.
  intros Hh Hb Hdh Hdb F1 F2. unfold injectScripts. cbn [head body].
  assert (truthy h = true) as -> by (destruct h; [congruence | reflexivity]).
  assert (truthy b = true) as -> by (destruct b; [congruence | reflexivity]).
  rewrite (replace_plain html "</head>" h a1 r1 F1 Hdh eq_refl).
  rewrite (replace_plain _ "</body>" b a2 r2 F2 Hdb eq_refl).
  split; [reflexivity|]. split; [now apply findFirst_Some | now apply findFirst_Some].
Qed.

Lemma injectScripts_plain_fragments_witness :
  injectScripts "<head><title>t</title></head><body><p>x</p></body>"
                (mkScripts "<script src=/a.js></script>" "<script src=/b.js></script>")
  = "<head><title>t</title><script src=/a.js></script>" +:+ LF
    +:+ "</head><body><p>x</p><script src=/b.js></script>" +:+ LF +:+ "</body>".
Proof.
  rewrite (proj1 (injectScripts_plain_fragments
             "<head><title>t</title></head><body><p>x</p></body>"
             "<script src=/a.js></script>" "<script src=/b.js></script>"
             "<head><title>t</title>" "<body><p>x</p></body>"
             ("<head><title>t</title><script src=/a.js></script>" +:+ LF
              +:+ "</head><body><p>x</p>") ""
             ltac:(discriminate) ltac:(discriminate) eq_refl eq_refl eq_refl eq_refl)).
  reflexivity.
Defined.

(** ** The script registry cache over time *)

(** After a successful refresh the pair is served from memory for the next
    five minutes: a [get()] at any time less than [CACHE_TTL_MS] after it
    returns the same pair, calls nothing and changes nothing, whatever the
    state of the backend then. *)
Theorem fresh_after_successful_refresh w w' env s r data :
  expired (scriptCache s) (now w) ->
  backend w (scriptServiceCall env) = Responds r -> ok r = true ->
  fr_json r = Some data ->
  now w' - now w < CACHE_TTL_MS ->
  let after := getScripts w env s in
  getScripts w' env (snd after) = (fst after, snd after).
Proof.
  intros He Hb Hok Hj Ht. cbv zeta.
  rewrite (getScripts_expired w env s He).
  rewrite (refreshScripts_success w env s (now w) r data Hb Hok Hj).
  cbn [fst snd]. now apply getScripts_fresh.
Qed.

Lemma fresh_after_successful_refresh_witness :
  let after := getScripts (worldAt 1700000000000 registryUp) sampleEnv warmIsolate in
  getScripts (worldAt 1700000299999 (fun _ => Hangs)) sampleEnv (snd after)
  = (fst after, snd after).
Proof.
  apply (fresh_after_successful_refresh
           (worldAt 1700000000000 registryUp)
           (worldAt 1700000299999 (fun _ => Hangs)) sampleEnv warmIsolate
           (mkFetchResponse 200 ∅ "" (Some registryDocument)) registryDocument).
  - unfold expired, CACHE_TTL_MS. simpl. lia.
  - reflexivity.
  - reflexivity.
  - reflexivity.
  - unfold CACHE_TTL_MS. simpl. lia.
Defined.

(** ** The two dispatchers *)

Section TwoDispatchers.

Variable w : World.
Variable env : Env.
Variable stringifyPlain : DebugInfoPlain -> string.

Lemma alike_refl r : alike r r.
Proof. unfold alike. auto. Qed.

Lemma alikeOption_refl o : alikeOption o o.
Proof. destruct o; simpl; [apply alike_refl | exact I]. Qed.

Lemma agree_bind {A B} (RA : A -> A -> Prop) (RB : B -> B -> Prop)
      (m2 m1 : M A) (f2 f1 : A -> M B) sa sb :
  agree RA (fst (m2 sa)) (fst (m1 sb)) ->
  (forall a b sa' sb', RA a b -> agree RB (fst (f2 a sa')) (fst (f1 b sb'))) ->
  agree RB (fst (bind m2 f2 sa)) (fst (bind m1 f1 sb)).
Proof.
  intros Hm Hf. unfold bind.
  destruct (m2 sa) as [[a| |] sa'], (m1 sb) as [[b| |] sb']; simpl in *;
    try contradiction; auto.
Qed.

Lemma dynamicSitemap_outcome path sa sb :
  fst (dynamicSitemap w env path sa) = fst (dynamicSitemap w env path sb).
Proof.
  unfold dynamicSitemap. destruct (isDynamicSitemap path); [|reflexivity].
  unfold_monad. destruct (backend w _) as [r| |]; try reflexivity.
  now destruct (ok r).
Qed.

Lemma staticSitemap_outcome path sa sb :
  fst (staticSitemap w env path sa) = fst (staticSitemap w env path sb).
Proof.
  unfold staticSitemap. destruct (isStaticSitemap path); [|reflexivity].
  unfold_monad. destruct (backend w _) as [r| |]; try reflexivity.
  now destruct (ok r).
Qed.

Lemma agree_same {A} (R : A -> A -> Prop) (o2 o1 : outcome A) :
  (forall a, R a a) -> o2 = o1 -> agree R o2 o1.
Proof. intros HR ->. destruct o1; simpl; auto. Qed.

Lemma bot_stage_agree path ua sa sb :
  agree alikeOption
        (fst (prerenderForBot w env path ua (mkScripts "" "") sa))
        (fst (prerenderForBotPlain w env path ua sb)).
Proof.
  unfold prerenderForBot, prerenderForBotPlain.
  destruct (isBot ua); [|exact I].
  unfold_monad. destruct (backend w _) as [r| |]; simpl; try exact I.
  destruct (ok r); simpl; [|exact I].
  split; [reflexivity|]. split; [reflexivity|]. split; [reflexivity|]. right.
  apply map_eq. intros k. unfold object, mkResponse.
  cbn [fold_left fst snd resp_headers].
  repeat (rewrite lookup_insert; case_decide; subst; try reflexivity;
          try congruence).
Qed.

Hypothesis origin_rebuildable :
  forall origin, next w = Returned origin -> isHtml origin = true ->
                 rebuildable origin.

Lemma spa_stage_agree sa sb :
  agree alike (fst (serveSpa w (mkScripts "" "") sa)) (fst (await (next w) sb)).
Proof.
  unfold await. destruct (next w) as [r| |] eqn:Hnext; cbn [fst].
  - destruct (isHtml r) eqn:Hhtml.
    + destruct (origin_rebuildable r eq_refl Hhtml) as (Hstatus & Hcookies & Htext).
      rewrite (serveSpa_html w _ sa r Hnext Hhtml Hstatus).
      rewrite Hcookies, Htext. cbn [fst last agree].
      split; [reflexivity|]. split; [reflexivity|].
      split; [now rewrite Hcookies|]. now right.
    + rewrite (serveSpa_other w _ sa r Hnext Hhtml). apply alike_refl.
  - unfold serveSpa. unfold_monad. now rewrite Hnext.
  - unfold serveSpa. unfold_monad. now rewrite Hnext.
Qed.

Lemma dispatchers_agree request s s1 :
  url_pathname request <> "/__debug" ->
  getScripts w env s = (Returned (mkScripts "" ""), s1) ->
  agree alike (fst (onRequest w env request s))
              (fst (onRequestPlain w env stringifyPlain request s)).
Proof.
  intros Hdebug Hscripts. apply String.eqb_neq in Hdebug.
  unfold onRequest, onRequestPlain. rewrite Hdebug.
  destruct (isStaticAsset (url_pathname request)).
  { apply agree_same; [apply alike_refl | reflexivity]. }
  unfold bind at 1. rewrite Hscripts.
  apply (agree_bind eq).
  { apply agree_same; [reflexivity | apply dynamicSitemap_outcome]. }
  intros r ? sa sb <-. destruct r as [resp|]; [apply alike_refl|].
  apply (agree_bind eq).
  { apply agree_same; [reflexivity | apply staticSitemap_outcome]. }
  intros r ? sa' sb' <-. destruct r as [resp|]; [apply alike_refl|].
  unfold servePage. apply (agree_bind alikeOption); [apply bot_stage_agree|].
  intros [r2|] [r1|] sa'' sb'' H; simpl in H; try contradiction.
  - exact H.
  - apply spa_stage_agree.
Qed.

End TwoDispatchers.

(** With an empty script registry the dispatcher that injects scripts
    (2.0.0) and the one that does not (1.0.0) answer every request but the
    debug one alike, provided that the origin's answer, when it is HTML, is
    one that the rebuild of 2.0.0 gives back as it was (a status that takes a
    body, no second [Set-Cookie] line, a body in well-formed UTF-8 without a
    byte order mark): both return, both reject or both stay pending, and the
    responses have the same status, body and [Set-Cookie] lines and the same
    headers, but for [X-Scripts-Injected: true] on the HTML that 2.0.0 has
    handled. *)
Theorem dispatchers_agree_without_scripts w env stringifyPlain request s s1 :
  url_pathname request <> "/__debug" ->
  getScripts w env s = (Returned (mkScripts "" ""), s1) ->
  (forall origin, next w = Returned origin -> isHtml origin = true ->
                  acceptsBody (resp_status origin) = true /\
                  resp_more_cookies origin = [] /\
                  text (resp_body origin) = resp_body origin) ->
  match fst (onRequest w env request s),
        fst (onRequestPlain w env stringifyPlain request s) with
  | Returned r2, Returned r1 =>
      resp_status r2 = resp_status r1 /\ resp_body r2 = resp_body r1 /\
      resp_more_cookies r2 = resp_more_cookies r1 /\
      (resp_headers r2 = resp_headers r1 \/
       resp_headers r2 = <["X-Scripts-Injected" := "true"]> (resp_headers r1))
  | Thrown, Thrown | Pending, Pending => True
  | _, _ => False
  end.
Proof.
  intros Hdebug Hscripts Horigin.
  pose proof (dispatchers_agree w env stringifyPlain Horigin request s s1
                Hdebug Hscripts) as H.
  unfold agree, alike in H.
  destruct (fst (onRequest w env request s)),
           (fst (onRequestPlain w env stringifyPlain request s)); exact H.
Qed.

Lemma dispatchers_agree_without_scripts_witness :
  exists r2 r1,
    fst (onRequest worldWithoutPage sampleEnv aboutAsBrowser coldIsolate)
    = Returned r2 /\
    fst (onRequestPlain worldWithoutPage sampleEnv (fun _ => "{}")
           aboutAsBrowser coldIsolate) = Returned r1 /\
    resp_body r2 = resp_body r1.
Proof.
  assert (Horigin : forall origin,
             next worldWithoutPage = Returned origin -> isHtml origin = true ->
             acceptsBody (resp_status origin) = true /\
             resp_more_cookies origin = [] /\
             text (resp_body origin) = resp_body origin).
  { intros origin Hnext _. injection Hnext as <-.
    split; [reflexivity|]. split; [reflexivity|]. vm_compute. reflexivity. }
  pose proof (dispatchers_agree_without_scripts worldWithoutPage sampleEnv
                (fun _ => "{}") aboutAsBrowser coldIsolate
                (called coldIsolate (scriptServiceCall sampleEnv))
                ltac:(discriminate) eq_refl Horigin) as H.
  destruct (fst (onRequest worldWithoutPage sampleEnv aboutAsBrowser coldIsolate))
    as [r2| |] eqn:E2;
    destruct (fst (onRequestPlain worldWithoutPage sampleEnv (fun _ => "{}")
                     aboutAsBrowser coldIsolate)) as [r1| |] eqn:E1;
    try contradiction; try discriminate E2; try discriminate E1.
  exists r2, r1. split; [reflexivity|]. split; [reflexivity|]. apply H.
Defined.

(** * Further properties of the prerender edge function *)

Module PrerenderMore.

Import Prerender.

(** A lookup that finds the page and whose update goes through sets the
    hit count of that path to one more than the count read (a missing count
    reads as 0) and leaves every other row as it was. *)
Theorem hit_increments_count p req table row :
  method req <> "OPTIONS" ->
  setupException p = None -> selectError p = false -> updateError p = false ->
  table !! requestedPath req = Some row -> html row <> "" ->
  snd (serve p req table) !! requestedPath req
  = Some (mkRow (html row) (expires_at row) (Some (default 0 (hit_count row) + 1))) /\
  forall other, other <> requestedPath req ->
                snd (serve p req table) !! other = table !! other.
Proof.
  intros Hm Hs Hsel Hupd Hrow Hhtml. unfold serve, handle.
  apply String.eqb_neq in Hm. rewrite Hm, Hs, Hsel.
  fold (requestedPath req). rewrite Hrow.
  assert (truthy (html row) = true) as ->
      by (destruct (html row); [congruence | reflexivity]).
  cbn [snd runUpdate]. rewrite Hupd. split.
  - rewrite lookup_alter_eq, Hrow. cbn [fmap option_fmap option_map]. do 3 f_equal.
    destruct (hit_count row) as [n|]; [|reflexivity]. cbn [default].
    destruct (Z.eqb_spec n 0); [now subst | reflexivity].
  - intros other Hne. now rewrite lookup_alter_ne.
Qed.

Lemma hit_increments_count_witness :
  hit_count <$> (snd (serve quietPlatform aboutLookup sampleTable) !! "/about")
  = Some (Some 5).
Proof.
  pose proof (proj1 (hit_increments_count quietPlatform aboutLookup sampleTable
                       aboutRow ltac:(discriminate) eq_refl eq_refl eq_refl eq_refl
                       ltac:(discriminate))) as H.
  change (requestedPath aboutLookup) with "/about" in H. rewrite H.
  reflexivity.
Defined.

(** A lookup that finds no page (no row for the path, a row with empty
    html, or a select that comes back with an error) answers 404 with
    [X-Cache: miss] and the JSON body naming the path, starts no update and
    leaves the table as it was.  A request without a [path] parameter, or
    with an empty one, is a lookup of [/]. *)
Theorem miss_answers_404 p req table :
  method req <> "OPTIONS" -> setupException p = None ->
  (selectError p = true \/ table !! requestedPath req = None \/
   exists row, table !! requestedPath req = Some row /\ html row = "") ->
  serve p req table
  = (mkResponse 404
       (object (corsHeaders ++
                [("Content-Type", "application/json"); ("X-Cache", "miss")]))
       (Some (jsonObject [("error", "not_cached"); ("path", requestedPath req)])),
     table) /\
  (path_param req = None \/ path_param req = Some "" -> requestedPath req = "/").
Proof.
  intros Hm Hs Hmiss. split.
  - unfold serve, handle. apply String.eqb_neq in Hm. rewrite Hm, Hs.
    fold (requestedPath req).
    destruct Hmiss as [->|[Hnone|(row & Hrow & Hhtml)]].
    + reflexivity.
    + rewrite Hnone. now destruct (selectError p).
    + destruct (selectError p); [reflexivity|]. rewrite Hrow. cbv beta iota.
      now rewrite Hhtml.
  - unfold requestedPath. now intros [->| ->].
Qed.

Lemma miss_answers_404_witness :
  status (fst (serve quietPlatform (mkRequest "GET" None) sampleTable)) = 404.
Proof.
  rewrite (proj1 (miss_answers_404 quietPlatform (mkRequest "GET" None) sampleTable
                    ltac:(discriminate) eq_refl
                    ltac:(right; left; reflexivity))).
  reflexivity.
Defined.

End PrerenderMore.

(** * Properties of the generators' text utilities *)

Module JsTextFacts.

Import JsText.

Lemma replaceAllChar_app c by_ a b :
  replaceAllChar c by_ (a +:+ b)
  = replaceAllChar c by_ a +:+ replaceAllChar c by_ b.
Proof.
  induction a as [|x a IH]; cbn [String.append replaceAllChar]; [reflexivity|].
  destruct (Ascii.eqb x c); rewrite IH; [now rewrite string_app_assoc | reflexivity].
Qed.

Lemma five_passes_app apos a b :
  replaceAllChar "'" apos
    (replaceAllChar QUOT "&quot;"
       (replaceAllChar ">" "&gt;"
          (replaceAllChar "<" "&lt;" (replaceAllChar "&" "&amp;" (a +:+ b)))))
  = replaceAllChar "'" apos
      (replaceAllChar QUOT "&quot;"
         (replaceAllChar ">" "&gt;"
            (replaceAllChar "<" "&lt;" (replaceAllChar "&" "&amp;" a))))
    +:+ replaceAllChar "'" apos
          (replaceAllChar QUOT "&quot;"
             (replaceAllChar ">" "&gt;"
                (replaceAllChar "<" "&lt;" (replaceAllChar "&" "&amp;" b)))).
Proof. now rewrite !replaceAllChar_app. Qed.

Lemma five_passes_one apos c :
  replaceAllChar "'" apos
    (replaceAllChar QUOT "&quot;"
       (replaceAllChar ">" "&gt;"
          (replaceAllChar "<" "&lt;" (replaceAllChar "&" "&amp;" (String c "")))))
  = entityOf apos c.
Proof.
  unfold entityOf, QUOT.
  change (ascii_of_nat 34)
    with (Ascii false true false false false true false false).
  destruct c as [[] [] [] [] [] [] [] []];
    cbn; rewrite ?string_app_nil_r; reflexivity.
Qed.

Lemma five_passes_each apos s :
  replaceAllChar "'" apos
    (replaceAllChar QUOT "&quot;"
       (replaceAllChar ">" "&gt;"
          (replaceAllChar "<" "&lt;" (replaceAllChar "&" "&amp;" s))))
  = escapeEach apos s.
Proof.
  induction s as [|c s IH]; [reflexivity|].
  change (String c s) with (String c "" +:+ s).
  rewrite five_passes_app, IH, five_passes_one. reflexivity.
Qed.

Lemma entity_no_markup apos c :
  allChars (fun x => negb (isMarkup x)) apos = true ->
  allChars (fun x => negb (isMarkup x)) (entityOf apos c) = true.
Proof.
  intros Ha. unfold entityOf.
  destruct (Ascii.eqb c "&"); [reflexivity|].
  destruct (Ascii.eqb c "<") eqn:E1; [reflexivity|].
  destruct (Ascii.eqb c ">") eqn:E2; [reflexivity|].
  destruct (Ascii.eqb c QUOT) eqn:E3; [reflexivity|].
  destruct (Ascii.eqb c "'") eqn:E4; [exact Ha|].
  cbn [allChars]. unfold isMarkup. now rewrite E1, E2, E3, E4.
Qed.

Lemma escapeEach_no_markup apos s :
  allChars (fun x => negb (isMarkup x)) apos = true ->
  allChars (fun x => negb (isMarkup x)) (escapeEach apos s) = true.
Proof.
  intros Ha. induction s as [|c s IH]; [reflexivity|].
  cbn [escapeEach]. now rewrite allChars_app, entity_no_markup, IH.
Qed.

(** [escapeXml] is the escaping of each code unit on its own: the five
    passes do not escape each other's output, since the ampersand goes
    first.  Its result holds no angle bracket, double quote or apostrophe. *)
Theorem escapeXml_each_code_unit str :
  escapeXml str = escapeEach "&apos;" str /\
  forall a c b, escapeXml str = a +:+ String c b ->
                ~ In c ["<"; ">"; QUOT; "'"]%char.
Proof.
  assert (He : escapeXml str = escapeEach "&apos;" str)
    by apply five_passes_each.
  split; [exact He|]. intros a c b H.
  assert (Hc : negb (isMarkup c) = true).
  { apply (allChars_occurrence (fun x => negb (isMarkup x)) (escapeXml str) a c b);
      [|exact H].
    rewrite He. now apply escapeEach_no_markup. }
  apply negb_true_iff in Hc. unfold isMarkup in Hc.
  apply orb_false_iff in Hc as [Hc H4]. apply orb_false_iff in Hc as [Hc H3].
  apply orb_false_iff in Hc as [H1 H2].
  intros [<-|[<-|[<-|[<-|[]]]]];
    [ rewrite Ascii.eqb_refl in H1 | rewrite Ascii.eqb_refl in H2
    | rewrite Ascii.eqb_refl in H3 | rewrite Ascii.eqb_refl in H4 ];
    discriminate.
Qed.

Lemma escapeXml_each_code_unit_witness :
  ~ In "&"%char ["<"; ">"; QUOT; "'"]%char.
Proof.
  apply (proj2 (escapeXml_each_code_unit "a<b&c") "a" "&"%char "lt;b&amp;c").
  reflexivity.
Defined.

(** [escapeHtml] likewise: the empty text stays empty, every other text is
    escaped one code unit at a time, and the result holds no angle bracket,
    double quote or apostrophe. *)
Theorem escapeHtml_each_code_unit text :
  escapeHtml text = escapeEach "&#039;" text /\
  forall a c b, escapeHtml text = a +:+ String c b ->
                ~ In c ["<"; ">"; QUOT; "'"]%char.
Proof.
  assert (He : escapeHtml text = escapeEach "&#039;" text).
  { unfold escapeHtml. destruct text as [|x r]; [reflexivity|].
    cbn [truthy negb]. apply five_passes_each. }
  split; [exact He|]. intros a c b H.
  assert (Hc : negb (isMarkup c) = true).
  { apply (allChars_occurrence (fun x => negb (isMarkup x)) (escapeHtml text) a c b);
      [|exact H].
    rewrite He. now apply escapeEach_no_markup. }
  apply negb_true_iff in Hc. unfold isMarkup in Hc.
  apply orb_false_iff in Hc as [Hc H4]. apply orb_false_iff in Hc as [Hc H3].
  apply orb_false_iff in Hc as [H1 H2].
  intros [<-|[<-|[<-|[<-|[]]]]];
    [ rewrite Ascii.eqb_refl in H1 | rewrite Ascii.eqb_refl in H2
    | rewrite Ascii.eqb_refl in H3 | rewrite Ascii.eqb_refl in H4 ];
    discriminate.
Qed.

Lemma escapeHtml_each_code_unit_witness :
  ~ In "#"%char ["<"; ">"; QUOT; "'"]%char.
Proof.
  apply (proj2 (escapeHtml_each_code_unit "it's") "it&" "#"%char "039;s").
  reflexivity.
Defined.

Lemma allChars_keepChars P s : allChars P (keepChars P s) = true.
Proof.
  induction s as [|c s IH]; [reflexivity|]. cbn [keepChars].
  destruct (P c) eqn:E; [|exact IH]. cbn [allChars]. now rewrite E.
Qed.

Lemma allChars_replaceRuns_dash b s :
  allChars isSlugChar s = true ->
  allChars isSlugChar (replaceRuns isDash "-" b s) = true.
Proof.
  revert b; induction s as [|c s IH]; intros b; [reflexivity|].
  cbn [allChars replaceRuns]. intros H. apply andb_true_iff in H as [Hc Hs].
  destruct (isDash c); [destruct b|].
  - now apply IH.
  - cbn [String.append allChars]. now rewrite IH.
  - cbn [allChars]. now rewrite Hc, IH.
Qed.

Lemma allChars_dropLeadingDash P s :
  allChars P s = true -> allChars P (dropLeadingDash s) = true.
Proof.
  destruct s as [|c r]; [reflexivity|]. cbn [dropLeadingDash allChars].
  intros H. destruct (isDash c); [|exact H]. now apply andb_true_iff in H as [_ H].
Qed.

Lemma allChars_dropTrailingDash P s :
  allChars P s = true -> allChars P (dropTrailingDash s) = true.
Proof.
  induction s as [|c r IH]; [reflexivity|]. cbn [allChars].
  intros H. apply andb_true_iff in H as [Hc Hr].
  destruct r as [|d r'].
  - cbn [dropTrailingDash]. destruct (isDash c); [reflexivity|].
    cbn [allChars]. now rewrite Hc.
  - change (dropTrailingDash (String c (String d r')))
      with (String c (dropTrailingDash (String d r'))).
    cbn [allChars]. now rewrite Hc, IH.
Qed.

Lemma allChars_substring P n s :
  allChars P s = true -> allChars P (String.substring 0 n s) = true.
Proof.
  revert s; induction n as [|n IH]; intros s.
  - now destruct s.
  - destruct s as [|c r]; [reflexivity|]. cbn [String.substring allChars].
    intros H. apply andb_true_iff in H as [Hc Hr]. now rewrite Hc, IH.
Qed.

Lemma double_dash_cons c r :
  includes (String c r) "--"
  = (Ascii.eqb "-" c && startsWith "-" r) || includes r "--".
Proof.
  cbn [includes startsWith]. destruct (Ascii.eqb "-" c); [|reflexivity].
  cbn [andb orb]. now destruct (startsWith "-" r).
Qed.

Lemma leading_dash_cons c r : startsWith "-" (String c r) = Ascii.eqb "-" c.
Proof. cbn [startsWith]. now destruct (Ascii.eqb "-" c). Qed.

Lemma replaceRuns_dashes b s :
  includes (replaceRuns isDash "-" b s) "--" = false /\
  (b = true -> startsWith "-" (replaceRuns isDash "-" b s) = false).
Proof.
  revert b; induction s as [|c s IH]; intros b; [split; reflexivity|].
  cbn [replaceRuns].
  assert (Hd : isDash c = Ascii.eqb "-" c) by apply Ascii.eqb_sym.
  rewrite Hd. destruct (Ascii.eqb "-" c) eqn:E.
  - destruct (IH true) as [H1 H2]. destruct b.
    + split; [exact H1 | intros _; now apply H2].
    + split; [|discriminate]. cbn [String.append]. rewrite double_dash_cons.
      now rewrite H1, H2.
  - destruct (IH false) as [H1 _]. rewrite double_dash_cons, leading_dash_cons, E.
    now rewrite H1.
Qed.

Lemma dropLeadingDash_dashes s :
  includes s "--" = false ->
  includes (dropLeadingDash s) "--" = false /\
  startsWith "-" (dropLeadingDash s) = false.
Proof.
  destruct s as [|c r]; [split; reflexivity|]. cbn [dropLeadingDash].
  assert (Hd : isDash c = Ascii.eqb "-" c) by apply Ascii.eqb_sym.
  rewrite Hd, double_dash_cons.
  destruct (Ascii.eqb "-" c) eqn:E; cbn [andb]; intros H.
  - apply orb_false_iff in H as [H1 H2]. now split.
  - cbn [orb] in H. rewrite double_dash_cons, leading_dash_cons, E. now split.
Qed.

Lemma dropTrailingDash_leading s :
  startsWith "-" s = false -> startsWith "-" (dropTrailingDash s) = false.
Proof.
  destruct s as [|c [|d r]]; [reflexivity| |].
  - cbn [dropTrailingDash]. now destruct (isDash c).
  - change (dropTrailingDash (String c (String d r)))
      with (String c (dropTrailingDash (String d r))).
    now rewrite !leading_dash_cons.
Qed.

Lemma dropTrailingDash_dashes s :
  includes s "--" = false -> includes (dropTrailingDash s) "--" = false.
Proof.
  induction s as [|c r IH]; [reflexivity|].
  destruct r as [|d r'].
  - cbn [dropTrailingDash]. now destruct (isDash c).
  - change (dropTrailingDash (String c (String d r')))
      with (String c (dropTrailingDash (String d r'))).
    rewrite !double_dash_cons. intros H. apply orb_false_iff in H as [H1 H2].
    rewrite (IH H2), orb_false_r.
    destruct (Ascii.eqb "-" c); [|reflexivity]. cbn [andb] in *.
    now apply dropTrailingDash_leading.
Qed.

Lemma substring_dashes n s :
  (startsWith "-" s = false -> startsWith "-" (String.substring 0 n s) = false) /\
  (includes s "--" = false -> includes (String.substring 0 n s) "--" = false).
Proof.
  revert s; induction n as [|n IH]; intros s.
  - destruct s; split; reflexivity.
  - destruct s as [|c r]; [split; reflexivity|]. cbn [String.substring].
    rewrite !leading_dash_cons, !double_dash_cons. split; [auto|].
    intros H. apply orb_false_iff in H as [H1 H2].
    destruct (IH r) as [I1 I2]. rewrite (I2 H2), orb_false_r.
    destruct (Ascii.eqb "-" c); [|reflexivity]. cbn [andb] in *. now apply I1.
Qed.

(** A slug is made of lower-case letters, digits and dashes only, is at most
    80 code units long, never starts with a dash and never holds two dashes
    in a row. *)
Theorem slugify_shape text :
  allChars isSlugChar (slugify text) = true /\
  (String.length (slugify text) <= 80)%nat /\
  startsWith "-" (slugify text) = false /\
  includes (slugify text) "--" = false.
Proof.
  unfold slugify.
  set (kept := keepChars isSlugChar
                 (replaceRuns isSpace "-" false
                    (replaceAllChar "&" "and" (toLowerCase text)))).
  destruct (replaceRuns_dashes false kept) as [Hdd _].
  destruct (dropLeadingDash_dashes _ Hdd) as [Hdd1 Hlead].
  split; [|split; [|split]].
  - apply allChars_substring, allChars_dropTrailingDash, allChars_dropLeadingDash,
      allChars_replaceRuns_dash, allChars_keepChars.
  - destruct (substring_prefix 80
                (dropTrailingDash (dropLeadingDash (replaceRuns isDash "-" false kept))))
      as (rest & _ & Hl). exact Hl.
  - apply substring_dashes. now apply dropTrailingDash_leading.
  - apply substring_dashes. now apply dropTrailingDash_dashes.
Qed.

End JsTextFacts.

(** * Properties of the dynamic sitemap generator *)

Module GenerateSitemapFacts.

Import JsText GenerateSitemap.

Lemma batchSize_pos : (0 < batchSize)%nat.
Proof. unfold batchSize. lia. Qed.

Lemma rangeOf_batch {Row} (rows : list Row) offset :
  rangeOf rows offset (offset + batchSize - 1)
  = Some (take batchSize (drop offset rows)).
Proof.
  pose proof batchSize_pos. unfold rangeOf. do 2 f_equal. lia.
Qed.

Lemma fetchAllRows_from {Row} (rows : list Row) fuel offset acc :
  (List.length rows - offset < fuel * batchSize)%nat ->
  fetchAllRows fuel (rangeOf rows) offset acc = Some (acc ++ drop offset rows)%list.
Proof.
  pose proof batchSize_pos as Hb.
  revert offset acc; induction fuel as [|fuel IH]; intros offset acc Hf; [lia|].
  cbn [fetchAllRows]. rewrite rangeOf_batch.
  pose proof (length_take (drop offset rows) batchSize) as Hl.
  rewrite length_drop in Hl.
  destruct (Nat.eqb_spec (List.length (take batchSize (drop offset rows))) 0)
    as [H0|H0].
  - assert (Hd : drop offset rows = []).
    { apply nil_length_inv. rewrite length_drop. lia. }
    now rewrite Hd, app_nil_r.
  - destruct (Nat.ltb_spec (List.length (take batchSize (drop offset rows))) batchSize)
      as [Hlt|Hge].
    + rewrite take_ge by (rewrite length_drop; lia). reflexivity.
    + rewrite IH by lia.
      rewrite <- app_assoc, <- (drop_drop rows), take_drop. reflexivity.
Qed.

Lemma fetchAllRows_whole {Row} (rows : list Row) fuel :
  (List.length rows / batchSize < fuel)%nat ->
  fetchAllRows fuel (rangeOf rows) 0 [] = Some rows.
Proof.
  intros Hf. rewrite fetchAllRows_from; [now rewrite drop_0|].
  rewrite Nat.sub_0_r. pose proof batchSize_pos as Hb.
  pose proof (Nat.div_mod_eq (List.length rows) batchSize).
  pose proof (Nat.mod_upper_bound (List.length rows) batchSize ltac:(lia)). nia.
Qed.

(** With a table read in a stable order, [fetchAllRows] returns every row,
    however many there are, in the order of the table, once the loop is
    given one round more than the table has full batches of 1000. *)
Theorem fetchAllRows_returns_every_row {Row} (rows : list Row) fuel :
  (List.length rows / batchSize < fuel)%nat ->
  fetchAllRows fuel (rangeOf rows) 0 [] = Some rows.
Proof. apply fetchAllRows_whole. Qed.

Lemma fetchAllRows_returns_every_row_witness :
  fetchAllRows 1 (rangeOf ["a"; "b"; "c"]) 0 [] = Some ["a"; "b"; "c"].
Proof.
  apply (fetchAllRows_returns_every_row ["a"; "b"; "c"] 1).
  apply Nat.Div0.div_lt_upper_bound.
  unfold batchSize. simpl List.length. lia.
Defined.

Lemma fetchAllRows_until_error {Row} (rows : list Row) k fuel j acc :
  (k * batchSize <= List.length rows)%nat -> (j <= k)%nat -> (k - j < fuel)%nat ->
  fetchAllRows fuel
    (fun from to => if (from =? k * batchSize)%nat then None else rangeOf rows from to)
    (j * batchSize) acc
  = Some (acc ++ take ((k - j) * batchSize) (drop (j * batchSize) rows))%list.
Proof.
  pose proof batchSize_pos as Hb.
  intros Hk. revert j acc; induction fuel as [|fuel IH]; intros j acc Hj Hf; [lia|].
  cbn [fetchAllRows].
  destruct (Nat.eqb_spec (j * batchSize) (k * batchSize)) as [E|E].
  - assert (j = k) by nia. subst j.
    rewrite Nat.sub_diag. cbn [Nat.mul take]. now rewrite app_nil_r.
  - assert (Hjk : (j < k)%nat) by (destruct (Nat.eq_dec j k); [subst; lia | lia]).
    rewrite rangeOf_batch.
    assert (Hl : List.length (take batchSize (drop (j * batchSize) rows)) = batchSize).
    { rewrite length_take, length_drop. nia. }
    rewrite Hl. destruct (Nat.eqb_spec batchSize 0) as [?|_]; [lia|].
    rewrite Nat.ltb_irrefl.
    replace (j * batchSize + batchSize)%nat with (S j * batchSize)%nat by lia.
    rewrite IH by lia. rewrite <- app_assoc. do 2 f_equal.
    replace (S j * batchSize)%nat with (j * batchSize + batchSize)%nat by lia.
    rewrite <- (drop_drop rows), take_take_drop. f_equal. nia.
Qed.

(** An error on a later page is not reported: when the query for the page
    that starts at row [k * 1000] comes back with an error, [fetchAllRows]
    returns the [k * 1000] rows read before it as if they were all. *)
Theorem fetchAllRows_error_truncates {Row} (rows : list Row) k fuel :
  (k * batchSize <= List.length rows)%nat -> (k < fuel)%nat ->
  fetchAllRows fuel
    (fun from to => if (from =? k * batchSize)%nat then None else rangeOf rows from to)
    0 []
  = Some (take (k * batchSize) rows).
Proof.
  intros Hk Hf.
  pose proof (fetchAllRows_until_error rows k fuel 0 [] Hk ltac:(lia) ltac:(lia)) as H.
  cbn [Nat.mul] in H. rewrite Nat.sub_0_r, drop_0 in H. exact H.
Qed.

Lemma fetchAllRows_error_truncates_witness :
  fetchAllRows 2 (fun from to => if (from =? 1 * batchSize)%nat then None
                                 else rangeOf (repeat "row" 1500) from to) 0 []
  = Some (take (1 * batchSize) (repeat "row" 1500)).
Proof.
  apply (fetchAllRows_error_truncates (repeat "row" 1500) 1 2).
  - rewrite repeat_length. unfold batchSize. lia.
  - lia.
Defined.

Lemma marketUrls_invariant markets seen urls :
  NoDup (map loc urls) ->
  (forall slug, slug ∈ seen <-> In ("/market/" +:+ slug) (map loc urls)) ->
  let result := marketUrls markets seen urls in
  NoDup (map loc result) /\
  (forall u, In u urls -> In u result) /\
  (forall m, In m markets -> In ("/market/" +:+ slugify (title m)) (map loc result)) /\
  (forall u, In u result ->
             In u urls \/
             exists m, In m markets /\
                       u = mkUrl ("/market/" +:+ slugify (title m)) (lastmodOf m)
                                 "daily" "0.7").
Proof.
  revert seen urls; induction markets as [|m rest IH]; intros seen urls Hnd Hseen;
    cbv zeta.
  - cbn [marketUrls]. split; [exact Hnd|]. split; [auto|].
    split; [intros m []|]. auto.
  - cbn [marketUrls]. set (slug := slugify (title m)).
    destruct (decide (slug ∈ seen)) as [Hin|Hnin].
    + destruct (IH seen urls Hnd Hseen) as (H1 & H2 & H3 & H4).
      split; [exact H1|]. split; [exact H2|]. split.
      * intros m' [<-|Hm']; [|now apply H3].
        apply Hseen in Hin. apply in_map_iff in Hin as (u & Hu & Huin).
        apply in_map_iff. exists u. split; [exact Hu | now apply H2].
      * intros u Hu. destruct (H4 u Hu) as [?|(m' & Hm' & ->)]; [now left|].
        right. exists m'. split; [now right | reflexivity].
    + set (entry := mkUrl ("/market/" +:+ slug) (lastmodOf m) "daily" "0.7").
      destruct (IH ({[slug]} ∪ seen) (urls ++ [entry])%list) as (H1 & H2 & H3 & H4).
      * rewrite map_app. apply NoDup_app. split; [exact Hnd|]. split.
        -- intros x Hx [Hy|[]]%list_elem_of_In. cbn [loc entry] in Hy. subst x.
           apply list_elem_of_In in Hx. apply Hseen in Hx. contradiction.
        -- cbn [map]. apply NoDup_singleton.
      * intros s'. rewrite map_app, in_app_iff, elem_of_union, elem_of_singleton.
        rewrite <- Hseen. cbn [map loc entry In]. split.
        -- intros [->|?]; [right; now left | now left].
        -- intros [?|[H|[]]]; [now right|]. left.
           change ("/market/" +:+ slug) with (String "/" (String "m" (String "a"
             (String "r" (String "k" (String "e" (String "t" (String "/" slug))))))))
             in H.
           change ("/market/" +:+ s') with (String "/" (String "m" (String "a"
             (String "r" (String "k" (String "e" (String "t" (String "/" s'))))))))
             in H.
           congruence.
      * split; [exact H1|]. split.
        -- intros u Hu. apply H2, in_or_app. now left.
        -- split.
           ++ intros m' [<-|Hm']; [|now apply H3].
              apply in_map_iff. exists entry. split; [reflexivity|].
              apply H2, in_or_app. right. now left.
           ++ intros u Hu. destruct (H4 u Hu) as [Hold|(m' & Hm' & ->)].
              ** apply in_app_or in Hold as [?|[<-|[]]]; [now left|].
                 right. exists m. split; [now left | reflexivity].
              ** right. exists m'. split; [now right | reflexivity].
Qed.

(** The url list of the markets names every slug once: no two entries have
    the same address, every market's slug has its entry, and every entry is
    [/market/] followed by the slug of some market, with that market's date. *)
Theorem marketUrls_one_entry_per_slug markets :
  let urls := marketUrls markets ∅ [] in
  NoDup (map loc urls) /\
  (forall m, In m markets -> In ("/market/" +:+ slugify (title m)) (map loc urls)) /\
  (forall u, In u urls ->
             exists m, In m markets /\
                       u = mkUrl ("/market/" +:+ slugify (title m)) (lastmodOf m)
                                 "daily" "0.7").
Proof.
  destruct (marketUrls_invariant markets ∅ []) as (H1 & _ & H3 & H4).
  - constructor.
  - intros slug. split; [intros H; now apply elem_of_empty in H | intros []].
  - cbv zeta. split; [exact H1|]. split; [exact H3|].
    intros u Hu. destruct (H4 u Hu) as [[]|H]. exact H.
Qed.

Lemma marketUrls_one_entry_per_slug_witness :
  In "/market/a-b"
     (map loc (marketUrls [mkMarket "A b" None; mkMarket "a  B" None] ∅ [])).
Proof.
  apply (proj1 (proj2 (marketUrls_one_entry_per_slug
                         [mkMarket "A b" None; mkMarket "a  B" None]))
           (mkMarket "a  B" None)).
  right. left. reflexivity.
Defined.

(** A request for a type other than [markets] and [all] (such as the
    [pillars] that the middleware asks for) is answered 200 with a sitemap
    that lists no url, without any table being read. *)
Theorem other_types_list_nothing fuel p req t :
  method req <> "OPTIONS" -> setupException p = false ->
  type_param req = Some t -> t <> "" -> t <> "markets" -> t <> "all" ->
  exists resp,
    handle fuel p req = Some resp /\
    Prerender.status resp = 200 /\
    Prerender.body resp = Some (generateSitemapXml []) /\
    includes (generateSitemapXml []) "<url>" = false.
Proof.
  intros Hm Hs Ht Hne Hmk Hall. unfold handle.
  apply String.eqb_neq in Hm, Hmk, Hall. rewrite Hm, Hs, Ht.
  assert (or_else t "all" = t) as -> by (destruct t; [congruence | reflexivity]).
  rewrite Hmk, Hall. cbn [orb]. eexists. split; [reflexivity|].
  split; [reflexivity|]. split; reflexivity.
Qed.

Lemma other_types_list_nothing_witness :
  exists resp,
    handle 0 (mkPlatform false (fun _ _ => None)) (mkRequest "GET" (Some "pillars"))
    = Some resp /\ Prerender.status resp = 200.
Proof.
  destruct (other_types_list_nothing 0 (mkPlatform false (fun _ _ => None))
              (mkRequest "GET" (Some "pillars")) "pillars")
    as (resp & H1 & H2 & _); try reflexivity; try discriminate.
  exists resp. split; assumption.
Defined.

(** For the markets, with the table read in a stable order and rounds
    enough, the sitemap is the one of [marketUrls] over all its rows; an
    exception while setting up gives 500 with the empty urlset, as XML. *)
Theorem markets_sitemap_lists_all_rows fuel range rows req :
  method req <> "OPTIONS" ->
  (type_param req = None \/ type_param req = Some "markets" \/
   type_param req = Some "all" \/ type_param req = Some "") ->
  (List.length rows / batchSize < fuel)%nat ->
  range = rangeOf rows ->
  (exists resp,
     handle fuel (mkPlatform false range) req = Some resp /\
     Prerender.status resp = 200 /\
     Prerender.body resp = Some (generateSitemapXml (marketUrls rows ∅ []))) /\
  (exists resp,
     handle fuel (mkPlatform true range) req = Some resp /\
     Prerender.status resp = 500 /\
     Prerender.body resp = Some EMPTY_URLSET /\
     Prerender.headers resp !! "Content-Type"
     = Some "application/xml; charset=utf-8").
Proof.
  intros Hm Ht Hf ->. apply String.eqb_neq in Hm. unfold handle.
  rewrite Hm. cbn [setupException marketsRange]. split.
  - rewrite (fetchAllRows_whole rows fuel Hf).
    destruct Ht as [->|[->|[->| ->]]]; cbn [or_else truthy String.eqb Ascii.eqb
      Bool.eqb orb]; eexists; (split; [reflexivity|]); split; reflexivity.
  - eexists. split; [reflexivity|]. split; [reflexivity|]. split; reflexivity.
Qed.

Lemma markets_sitemap_lists_all_rows_witness :
  exists resp,
    handle 1 (mkPlatform false (rangeOf [mkMarket "A b" None]))
           (mkRequest "GET" None) = Some resp /\
    Prerender.status resp = 200.
Proof.
  destruct (proj1 (markets_sitemap_lists_all_rows 1 (rangeOf [mkMarket "A b" None])
                     [mkMarket "A b" None] (mkRequest "GET" None)
                     ltac:(discriminate) ltac:(left; reflexivity)
                     ltac:(apply Nat.Div0.div_lt_upper_bound; unfold batchSize;
                           simpl List.length; lia)
                     eq_refl))
    as (resp & H1 & H2 & _).
  exists resp. split; assumption.
Defined.

End GenerateSitemapFacts.

(** * The middleware in front of the edge functions *)

Section QueryFacts.

Import UrlQuery.








End QueryFacts.

Section InFrontOfPrerender.

Variable w : World.
Variable env : Env.

Hypothesis base_plain :
  allChars (fun c => negb (Ascii.eqb c "?") && negb (Ascii.eqb c "#"))
           (SUPABASE_URL env) = true.




End InFrontOfPrerender.








(** * Properties of the static sitemap function *)

Module ServeSitemapFacts.

Import ServeSitemap.

(** Whatever happens, a request other than OPTIONS is answered with XML:
    either 200 with the stored content of the file asked for
    ([sitemap-index.xml] when no file is named), or 404 or 500 with the
    empty urlset; never with an error text or JSON. *)
Theorem serve_sitemap_always_xml p req table :
  method req <> "OPTIONS" ->
  let filename := match file_param req with
                  | Some f => or_else f "sitemap-index.xml"
                  | None => "sitemap-index.xml"
                  end in
  let resp := handle p req table in
  Prerender.headers resp !! "Content-Type" = Some "application/xml; charset=utf-8" /\
  ((Prerender.status resp = 200 /\
    exists row, table !! filename = Some row /\ content row <> "" /\
                Prerender.body resp = Some (content row)) \/
   ((Prerender.status resp = 404 \/ Prerender.status resp = 500) /\
    Prerender.body resp = Some EMPTY_URLSET)).
Proof.
  intros Hm. apply String.eqb_neq in Hm. cbv zeta. unfold handle. rewrite Hm.
  destruct (setupException p).
  { split; [reflexivity|]. right. split; [now right | reflexivity]. }
  destruct (selectError p).
  { split; [reflexivity|]. right. split; [now left | reflexivity]. }
  destruct (table !! _) as [row|] eqn:Hrow.
  - destruct (truthy (content row)) eqn:Ht.
    + split; [reflexivity|]. left. split; [reflexivity|]. exists row.
      split; [reflexivity|]. split; [|reflexivity].
      intros Hc. rewrite Hc in Ht. discriminate Ht.
    + split; [reflexivity|]. right. split; [now left | reflexivity].
  - split; [reflexivity|]. right. split; [now left | reflexivity].
Qed.

Lemma serve_sitemap_always_xml_witness :
  Prerender.headers (handle (mkPlatform false true) (mkRequest "GET" None) sitemapTable)
    !! "Content-Type" = Some "application/xml; charset=utf-8".
Proof.
  apply (serve_sitemap_always_xml (mkPlatform false true) (mkRequest "GET" None)
           sitemapTable).
  discriminate.
Defined.

End ServeSitemapFacts.
